(** * Terminal-style screenshot generator: layout and pagination

    A shallow embedding of [scripts/generate_screenshot.py] and the
    properties of its line-layout and pagination algorithm.

    The script reads a transcript, prefixes its first three lines with a
    prompt, measures every displayed line with Pillow, groups consecutive
    lines into height-bounded parts and draws one image per part.

    Integers of the script are [Z] (pixel quantities) or [nat] (list
    indices); Python lists are Rocq lists, indexed with stdpp's lookup and
    an explicit [IndexError]; the file system is a finite map from paths to
    nodes; the two [while] loops take fuel. *)

From Stdlib Require Import ZArith Ascii String DecimalString DecimalZ Lia.
From stdpp Require Import base option list gmap strings.

Local Open Scope Z_scope.

(** ** Configuration (module-level constants of the script) *)

Definition INPUT_FILE : string := "output/live_run.txt".
Definition OUTPUT_FILE_PREFIX : string := "output/screenshot".
Definition BG_COLOR : string := "#2E3440".
Definition TEXT_COLOR : string := "#E5E9F0".
Definition PROMPT_COLOR : string := "#A3BE8C".
Definition FONT_SIZE : Z := 15.
Definition LINE_SPACING : Z := 5.
Definition PADDING : Z := 20.
Definition MAX_IMAGE_HEIGHT : Z := 800.
Definition PROMPT : string := "$ ".

(** ** Python values the script manipulates *)

(** Exceptions the script can meet.  [IOError] stands for [OSError] (of
    which it is an alias) raised as such; [FileNotFoundError],
    [NotADirectoryError] and [IsADirectoryError] are its subclasses. *)
Inductive exn : Type :=
| IndexError
| IOError
| FileNotFoundError
| NotADirectoryError
| IsADirectoryError
| UnicodeDecodeError
| AttributeError
| TypeError
| SystemExit (code : Z).

(** [isinstance(e, IOError)]: what [except IOError] catches. *)
Definition is_io_error (e : exn) : bool :=
  match e with
  | IOError | FileNotFoundError | NotADirectoryError | IsADirectoryError => true
  | _ => false
  end.

(** Result of running a piece of the script: a value, an exception, or
    the fuel of a [while] loop used up. *)
Inductive res (A : Type) : Type :=
| Ok (a : A)
| Raise (e : exn)
| OutOfFuel.
Arguments Ok {A} a.
Arguments Raise {A} e.
Arguments OutOfFuel {A}.

Definition res_bind {A B : Type} (r : res A) (k : A -> res B) : res B :=
  match r with
  | Ok a => k a
  | Raise e => Raise e
  | OutOfFuel => OutOfFuel
  end.

Notation "'let?' x ':=' r 'in' k" := (res_bind r (fun x => k))
  (at level 10, x pattern, r at level 100, k at level 200).

(** [l[i]] for [0 <= i]: a value, or [IndexError] out of range. *)
Definition index {A : Type} (l : list A) (i : nat) : res A :=
  match l !! i with
  | Some a => Ok a
  | None => Raise IndexError
  end.

(** [enumerate(l)] *)
Definition enumerate {A : Type} (l : list A) : list (nat * A) :=
  imap (fun i a => (i, a)) l.

(** [bool(l)] of a list: true when it is not empty. *)
Definition truthy {A : Type} (l : list A) : bool :=
  match l with
  | [] => false
  | _ :: _ => true
  end.

(** [s[n:]] *)
Fixpoint slice_from (n : nat) (s : string) : string :=
  match n, s with
  | O, _ => s
  | S n', String _ s' => slice_from n' s'
  | S _, EmptyString => EmptyString
  end.

(** [s.startswith(p)] *)
Definition startswith (s p : string) : bool := String.prefix p s.

(** [str(n)] of an integer, as an f-string prints it. *)
Definition str_of_int (n : Z) : string := NilEmpty.string_of_int (Z.to_int n).

(** *** [os.path.dirname] (posixpath) *)

(** [p.rfind(c) + 1] *)
Fixpoint rfind_succ (c : ascii) (p : string) : nat :=
  match p with
  | EmptyString => O
  | String a p' =>
      match rfind_succ c p' with
      | O => if Ascii.eqb a c then 1%nat else O
      | S k => S (S k)
      end
  end.

(** [s == c * len(s)] *)
Fixpoint all_char (c : ascii) (s : string) : bool :=
  match s with
  | EmptyString => true
  | String a s' => Ascii.eqb a c && all_char c s'
  end.

(** [s.rstrip(c)] *)
Fixpoint rstrip (c : ascii) (s : string) : string :=
  match s with
  | EmptyString => EmptyString
  | String a s' =>
      match rstrip c s' with
      | EmptyString => if Ascii.eqb a c then EmptyString else String a EmptyString
      | r => String a r
      end
  end.

Definition str_nonempty (s : string) : bool :=
  match s with
  | EmptyString => false
  | String _ _ => true
  end.

Definition dirname (p : string) : string :=
  let sep := "/"%char in
  let i := rfind_succ sep p in
  let head := String.substring 0 i p in
  if str_nonempty head && negb (all_char sep head) then rstrip sep head else head.

(** ** Pillow *)

(** A font bound to a drawing context: the two measurement routines the
    script may use.  [textbbox] returns [(left, top, right, bottom)];
    [textsize] returns [(width, height)]. *)
Record Font : Type := {
  has_textbbox : bool;
  textbbox : string -> Z * Z * Z * Z;
  textsize : string -> Z * Z
}.

(** What the installed Pillow does on the three calls of lines 21-27,
    each giving a font or raising:
    [ImageFont.truetype("DejaVuSansMono.ttf", FONT_SIZE)], which raises
    an [OSError] when the font is not found;
    [ImageFont.load_default(size=FONT_SIZE)], which a Pillow without the
    [size] parameter refuses with [TypeError]; and
    [ImageFont.load_default()]. *)
Record Pillow : Type := {
  truetype : Font + exn;
  load_default_sized : Font + exn;
  load_default : Font + exn
}.

(** One call of [draw.text((x, y), text, font=font, fill=fill)]. *)
Record DrawText : Type := {
  dt_x : Z;
  dt_y : Z;
  dt_text : string;
  dt_fill : string
}.

(** An image: [Image.new("RGB", (width, height), bg)] and the text drawn
    on it, in drawing order. *)
Record Image : Type := {
  im_width : Z;
  im_height : Z;
  im_bg : string;
  im_draws : list DrawText
}.

(** ** The world: file system and the two output streams *)

(** A text file is held as [f.read().splitlines()] returns it. *)
Inductive node : Type :=
| Dir
| TextFile (lines : list string)
| PngFile (img : Image).

Record World : Type := {
  fs : gmap string node;
  stdout : list string;
  stderr : list string
}.

Definition path_exists (w : World) (p : string) : bool :=
  match fs w !! p with
  | Some _ => true
  | None => false
  end.

Definition makedirs (p : string) (w : World) : World :=
  {| fs := <[p := Dir]> (fs w); stdout := stdout w; stderr := stderr w |}.

Definition save (p : string) (img : Image) (w : World) : World :=
  {| fs := <[p := PngFile img]> (fs w); stdout := stdout w; stderr := stderr w |}.

Definition print (s : string) (w : World) : World :=
  {| fs := fs w; stdout := stdout w ++ [s]; stderr := stderr w |}.

Definition eprint (s : string) (w : World) : World :=
  {| fs := fs w; stdout := stdout w; stderr := stderr w ++ [s] |}.

(** [open(p, "r")] followed by [f.read().splitlines()].  A world that
    holds a node at [p] holds a directory above it, so the directory of
    [p] is looked at only when nothing is at [p]: a regular file there
    makes [open] raise [NotADirectoryError]; a directory, or nothing, makes
    it raise [FileNotFoundError].  Paths have one directory component, as
    [INPUT_FILE] has. *)
Definition read_lines (w : World) (p : string) : res (list string) :=
  match fs w !! p with
  | Some (TextFile lines) => Ok lines
  | Some Dir => Raise IsADirectoryError
  | Some (PngFile _) => Raise UnicodeDecodeError
  | None =>
      match fs w !! dirname p with
      | Some (TextFile _) | Some (PngFile _) => Raise NotADirectoryError
      | Some Dir | None => Raise FileNotFoundError
      end
  end.

(** ** The script *)

(** *** Font selection (module level) *)

Definition select_font (pil : Pillow) (w : World) : (Font + exn) * World :=
  match truetype pil with
  | inl font => (inl font, w)
  | inr e =>
      if is_io_error e then
        let w :=
          eprint "Default monospaced font not found. Using Pillow's default." w in
        match load_default_sized pil with
        | inl font => (inl font, w)
        | inr AttributeError => (load_default pil, w)
        | inr e' => (inr e', w)
        end
      else (inr e, w)
  end.

(** *** [get_text_size] *)

Definition get_text_size (font : Font) (text : string) : Z * Z :=
  if has_textbbox font then
    let '(x0, y0, x1, y1) := textbbox font text in
    (x1 - x0, y1 - y0)
  else textsize font text.

(** *** The loops of [main] *)

(** Lines 55-60: prepend the prompt to the first three lines. *)
Definition style_lines (lines : list string) : list string :=
  fold_left
    (fun styled_lines '(i, line) =>
       if (i <? 3)%nat then styled_lines ++ [PROMPT +:+ line]
       else styled_lines ++ [line])
    (enumerate lines) [].

(** Lines 66-71: the widest line and the height of every line. *)
Definition measure_lines (font : Font) (styled_lines : list string) : Z * list Z :=
  fold_left
    (fun '(max_width, line_heights) line =>
       let '(width, height) := get_text_size font line in
       (Z.max max_width width, line_heights ++ [height]))
    styled_lines (0, []).

(** Lines 84-93: the inner [while], filling one part.  Returns the line
    index reached, the height accumulated and the lines of the part. *)
Fixpoint fill_part (fuel : nat) (styled_lines : list string) (line_heights : list Z)
    (current_line_index : nat) (part_height_calculator : Z)
    (lines_for_this_part : list string) : res (nat * Z * list string) :=
  match fuel with
  | O => OutOfFuel
  | S fuel' =>
      if (current_line_index <? length styled_lines)%nat then
        let? height := index line_heights current_line_index in
        let line_h := height + LINE_SPACING in
        if (part_height_calculator + line_h >? MAX_IMAGE_HEIGHT)
           && truthy lines_for_this_part
        then Ok (current_line_index, part_height_calculator, lines_for_this_part)
        else
          let? line := index styled_lines current_line_index in
          fill_part fuel' styled_lines line_heights
            (S current_line_index)
            (part_height_calculator + line_h)
            (lines_for_this_part ++ [line])
      else Ok (current_line_index, part_height_calculator, lines_for_this_part)
  end.

(** Lines 106-111: the text drawn for one line at height [y_text]. *)
Definition draw_line (font : Font) (y_text : Z) (line : string) : list DrawText :=
  if startswith line PROMPT then
    let '(prompt_width, _) := get_text_size font PROMPT in
    [ {| dt_x := PADDING; dt_y := y_text; dt_text := PROMPT; dt_fill := PROMPT_COLOR |};
      {| dt_x := PADDING + prompt_width; dt_y := y_text;
         dt_text := slice_from (String.length PROMPT) line; dt_fill := TEXT_COLOR |} ]
  else
    [ {| dt_x := PADDING; dt_y := y_text; dt_text := line; dt_fill := TEXT_COLOR |} ].

(** Lines 102-113: the [for] loop drawing the lines of a part. *)
Fixpoint draw_lines (font : Font) (line_heights : list Z) (part_start_index : nat)
    (enumerated : list (nat * string)) (y_text : Z) (drawn : list DrawText)
    : res (list DrawText) :=
  match enumerated with
  | [] => Ok drawn
  | (i, line) :: rest =>
      let original_line_index := (part_start_index + i)%nat in
      let drawn := drawn ++ draw_line font y_text line in
      let? height := index line_heights original_line_index in
      draw_lines font line_heights part_start_index rest
        (y_text + (height + LINE_SPACING)) drawn
  end.

(** What one iteration of the outer loop produced. *)
Record Part : Type := {
  part_number : Z;
  part_start_index : nat;
  lines_for_this_part : list string;
  part_height : Z;
  img : Image;
  output_filename : string
}.

(** Lines 79-120: the outer [while].  Returns the parts in the order they
    were saved.  The sizes are integers already, so the [int(...)] of line
    98 changes nothing. *)
Fixpoint paginate (fuel : nat) (font : Font) (styled_lines : list string)
    (line_heights : list Z) (img_width : Z)
    (part_number : Z) (current_line_index : nat) (w : World)
    : res (list Part) * World :=
  match fuel with
  | O => (OutOfFuel, w)
  | S fuel' =>
      if (current_line_index <? length styled_lines)%nat then
        let part_start_index := current_line_index in
        match fill_part fuel' styled_lines line_heights current_line_index PADDING [] with
        | Ok (current_line_index, part_height_calculator, lines_for_this_part) =>
            let part_height_calculator := part_height_calculator + PADDING in
            match draw_lines font line_heights part_start_index
                    (enumerate lines_for_this_part) PADDING [] with
            | Ok drawn =>
                let img := {| im_width := img_width; im_height := part_height_calculator;
                              im_bg := BG_COLOR; im_draws := drawn |} in
                let output_filename :=
                  OUTPUT_FILE_PREFIX +:+ "_" +:+ str_of_int part_number +:+ ".png" in
                let w := save output_filename img w in
                let w := print ("Screenshot part saved to '" +:+ output_filename +:+ "'") w in
                let part := {| part_number := part_number;
                               part_start_index := part_start_index;
                               lines_for_this_part := lines_for_this_part;
                               part_height := part_height_calculator;
                               img := img;
                               output_filename := output_filename |} in
                let '(r, w) := paginate fuel' font styled_lines line_heights img_width
                                 (part_number + 1) current_line_index w in
                (let? parts := r in Ok (part :: parts), w)
            | Raise e => (Raise e, w)
            | OutOfFuel => (OutOfFuel, w)
            end
        | Raise e => (Raise e, w)
        | OutOfFuel => (OutOfFuel, w)
        end
      else (Ok [], w)
  end.

(** *** [main] *)

(** Lines 43-45: ensure the output directory exists. *)
Definition ensure_output_dir (w : World) : World :=
  let output_dir := dirname OUTPUT_FILE_PREFIX in
  if str_nonempty output_dir && negb (path_exists w output_dir)
  then makedirs output_dir w else w.

Definition main (fuel : nat) (font : Font) (w : World) : res (list Part) * World :=
  let w := ensure_output_dir w in
  match read_lines w INPUT_FILE with
  | Raise FileNotFoundError =>
      (Raise (SystemExit 1),
       eprint ("Error: Input file '" +:+ INPUT_FILE +:+ "' not found.") w)
  | Raise e => (Raise e, w)
  | OutOfFuel => (OutOfFuel, w)
  | Ok lines =>
      let styled_lines := style_lines lines in
      let '(max_width, line_heights) := measure_lines font styled_lines in
      let img_width := max_width + PADDING * 2 in
      paginate fuel font styled_lines line_heights img_width 1 0%nat w
  end.

(** The whole script: font selection, then [main]; an exception that
    leaves font selection ends the script before [main]. *)
Definition script (fuel : nat) (pil : Pillow) (w : World) : res (list Part) * World :=
  let '(selected, w) := select_font pil w in
  match selected with
  | inl font => main fuel font w
  | inr e => (Raise e, w)
  end.

(** Exit status of the process: 0 on a normal return, the code of
    [sys.exit], 1 for an uncaught exception. *)
Definition exit_status {A : Type} (r : res A) : option Z :=
  match r with
  | Ok _ => Some 0
  | Raise (SystemExit code) => Some code
  | Raise _ => Some 1
  | OutOfFuel => None
  end.

(** ** The reference algorithm of the specification (section 4.2)

    Written from the specification's words, as relations, to be compared
    with [fill_part] and [paginate] above. *)

Record SpecPage : Type := {
  sp_part_number : Z;
  sp_lines : list string;
  sp_start_index : nat;
  sp_total_height : Z;
  sp_image_width : Z
}.

Section Reference.
Variable displayed_lines : list string.
Variable height : list Z.
Variables padding line_spacing max_page_height : Z.
Variable max_width : Z.

(** Filling one page from [(current_index, running_height, page)]. *)
Inductive spec_fill : nat -> Z -> list string -> nat -> Z -> list string -> Prop :=
| spec_fill_exhausted current_index running_height page :
    (length displayed_lines <= current_index)%nat ->
    spec_fill current_index running_height page current_index running_height page
| spec_fill_stop current_index running_height page h :
    (current_index < length displayed_lines)%nat ->
    height !! current_index = Some h ->
    running_height + (h + line_spacing) > max_page_height ->
    page <> [] ->
    spec_fill current_index running_height page current_index running_height page
| spec_fill_add current_index running_height page h line index' height' page' :
    (current_index < length displayed_lines)%nat ->
    height !! current_index = Some h ->
    displayed_lines !! current_index = Some line ->
    ~ (running_height + (h + line_spacing) > max_page_height /\ page <> []) ->
    spec_fill (S current_index) (running_height + (h + line_spacing)) (page ++ [line])
      index' height' page' ->
    spec_fill current_index running_height page index' height' page'.

(** The pages emitted from [current_index] on, numbered from [part_number]. *)
Inductive spec_pages : nat -> Z -> list SpecPage -> Prop :=
| spec_pages_done current_index part_number :
    (length displayed_lines <= current_index)%nat ->
    spec_pages current_index part_number []
| spec_pages_emit current_index part_number index' running_height page rest :
    (current_index < length displayed_lines)%nat ->
    spec_fill current_index padding [] index' running_height page ->
    spec_pages index' (part_number + 1) rest ->
    spec_pages current_index part_number
      ({| sp_part_number := part_number;
          sp_lines := page;
          sp_start_index := current_index;
          sp_total_height := running_height + padding;
          sp_image_width := max_width + 2 * padding |} :: rest).
End Reference.

(** The page of the specification that a part of the script stands for. *)
Definition page_of_part (p : Part) : SpecPage :=
  {| sp_part_number := part_number p;
     sp_lines := lines_for_this_part p;
     sp_start_index := part_start_index p;
     sp_total_height := part_height p;
     sp_image_width := im_width (img p) |}.

(** ** What is drawn, and in which colour *)

(** The text and fill colour of every [draw.text] call of a part. *)
Definition colour_runs (draws : list DrawText) : list (string * string) :=
  map (fun d => (dt_text d, dt_fill d)) draws.

(** All runs of all parts, in drawing order. *)
Definition drawn_runs (parts : list Part) : list (string * string) :=
  concat (map (fun p => colour_runs (im_draws (img p))) parts).

(** Runs of a displayed line under the script's rule: the line starts
    with the prompt. *)
Definition prefix_runs (line : string) : list (string * string) :=
  if startswith line PROMPT
  then [(PROMPT, PROMPT_COLOR); (slice_from (String.length PROMPT) line, TEXT_COLOR)]
  else [(line, TEXT_COLOR)].

(** Runs of a displayed line under the specification's rule: the line is
    one of the first three. *)
Definition index_runs (i : nat) (line : string) : list (string * string) :=
  if (i <? 3)%nat
  then [(PROMPT, PROMPT_COLOR); (slice_from (String.length PROMPT) line, TEXT_COLOR)]
  else [(line, TEXT_COLOR)].

(** Sum of [height + LINE_SPACING] over the lines [start, start + n). *)
Definition lines_height (line_heights : list Z) (start n : nat) : Z :=
  foldr (fun h acc => (h + LINE_SPACING) + acc) 0 (take n (drop start line_heights)).

(** What [main] prints when the transcript is missing. *)
Definition not_found_message : string :=
  "Error: Input file '" +:+ INPUT_FILE +:+ "' not found.".

(** Number of lines and height of every part of a run. *)
Definition part_sizes (r : res (list Part)) : res (list (nat * Z)) :=
  let? parts := r in
  Ok (map (fun p => (length (lines_for_this_part p), part_height p)) parts).

(** Number of lines of every part of a run. *)
Definition line_counts (r : res (list Part)) : res (list nat) :=
  let? parts := r in
  Ok (map (fun p => length (lines_for_this_part p)) parts).

(** Text and colour of everything a run draws. *)
Definition res_runs (r : res (list Part)) : res (list (string * string)) :=
  let? parts := r in
  Ok (drawn_runs parts).

(** The values [main] computes before it paginates. *)
Definition displayed_lines (lines : list string) : list string := style_lines lines.
Definition max_width (font : Font) (lines : list string) : Z :=
  (measure_lines font (style_lines lines)).1.
Definition heights (font : Font) (lines : list string) : list Z :=
  (measure_lines font (style_lines lines)).2.

(** ** The effects of a run, written out *)

(** What font selection prints when DejaVuSansMono is missing. *)
Definition font_message : string :=
  "Default monospaced font not found. Using Pillow's default.".

(** Whether font selection prints its message: [truetype] raised an
    [IOError]. *)
Definition font_missing (pil : Pillow) : bool :=
  match truetype pil with
  | inl _ => false
  | inr e => is_io_error e
  end.

(** The font the script ends up with, or the exception that ends it. *)
Definition selected_font (pil : Pillow) : Font + exn :=
  match truetype pil with
  | inl font => inl font
  | inr e =>
      if is_io_error e then
        match load_default_sized pil with
        | inl font => inl font
        | inr AttributeError => load_default pil
        | inr e' => inr e'
        end
      else inr e
  end.

(** The world font selection leaves. *)
Definition after_font_selection (pil : Pillow) (w : World) : World :=
  if font_missing pil then eprint font_message w else w.

(** The line printed after a part is saved. *)
Definition saved_message (p : Part) : string :=
  "Screenshot part saved to '" +:+ output_filename p +:+ "'".

(** The file system after the images of [parts] were saved, in order. *)
Definition write_parts (m : gmap string node) (parts : list Part) : gmap string node :=
  foldl (fun m p => <[output_filename p := PngFile (img p)]> m) m parts.

(** The [draw.text] calls for the lines of a part that starts at line
    [start], each line placed below the lines before it. *)
Definition placed_draws (font : Font) (line_heights : list Z) (start : nat)
    (lines : list string) : list DrawText :=
  concat (imap (fun i line =>
                  draw_line font (PADDING + lines_height line_heights start i) line)
               lines).

(** ** Concrete inputs used in the examples *)

(** A font whose every text is 20 pixels high and 8 pixels wide per
    character. *)
Definition font20 : Font :=
  {| has_textbbox := true;
     textbbox := fun s => (0, 0, 8 * Z.of_nat (String.length s), 20);
     textsize := fun s => (8 * Z.of_nat (String.length s), 20) |}.

Definition pillow20 : Pillow :=
  {| truetype := inl font20; load_default_sized := inl font20; load_default := inl font20 |}.

(** A font whose every text is 900 pixels high. *)
Definition tall_font : Font :=
  {| has_textbbox := false;
     textbbox := fun s => (0, 0, 0, 0);
     textsize := fun s => (8 * Z.of_nat (String.length s), 900) |}.

(** An installation without DejaVuSansMono, whose [load_default] gives
    a font with or without a size. *)
Definition pillow_default_only : Pillow :=
  {| truetype := inr IOError; load_default_sized := inl font20; load_default := inl font20 |}.

(** An installation without DejaVuSansMono, whose [load_default] does
    not take a size. *)
Definition pillow_old : Pillow :=
  {| truetype := inr IOError; load_default_sized := inr TypeError;
     load_default := inl font20 |}.

(** A world where a regular file is in the place of the output
    directory. *)
Definition world_output_is_file : World :=
  {| fs := {[ "output"%string := TextFile [] ]}; stdout := []; stderr := [] |}.

(** A transcript of one line. *)
Definition one_line : list string := ["x"]%string.

(** A world holding only the transcript. *)
Definition world_of (lines : list string) : World :=
  {| fs := {[ INPUT_FILE := TextFile lines ]}; stdout := []; stderr := [] |}.

(** A world holding nothing. *)
Definition empty_world : World := {| fs := ∅; stdout := []; stderr := [] |}.

Definition hundred_lines : list string := replicate 100 "x"%string.

Definition four_lines : list string := ["ls -la"; "cd /tmp"; "whoami"; "$ exit"]%string.

(** ** Iterations of the outer loop

    The outer [while] read as a relation between the state before and
    after: which parts were saved from [(part_number, current_line_index)]
    on, and the world they leave.  It is the loop of [paginate] without
    its fuel, and is what the proofs below do induction on. *)

Definition filename_of (part_number : Z) : string :=
  OUTPUT_FILE_PREFIX +:+ "_" +:+ str_of_int part_number +:+ ".png".

Definition part_of (img_width : Z) (part_number : Z) (part_start_index : nat)
    (lines_for_this_part : list string) (part_height_calculator : Z)
    (drawn : list DrawText) : Part :=
  {| part_number := part_number;
     part_start_index := part_start_index;
     lines_for_this_part := lines_for_this_part;
     part_height := part_height_calculator + PADDING;
     img := {| im_width := img_width; im_height := part_height_calculator + PADDING;
               im_bg := BG_COLOR; im_draws := drawn |};
     output_filename := filename_of part_number |}.

Definition after_part (p : Part) (w : World) : World :=
  print ("Screenshot part saved to '" +:+ output_filename p +:+ "'")
    (save (output_filename p) (img p) w).

Inductive paginated (font : Font) (styled_lines : list string) (line_heights : list Z)
    (img_width : Z) : Z -> nat -> World -> list Part -> World -> Prop :=
| paginated_done part_number current_line_index w :
    (length styled_lines <= current_line_index)%nat ->
    paginated font styled_lines line_heights img_width
      part_number current_line_index w [] w
| paginated_part part_number current_line_index w fuel index' h lines drawn parts w' :
    (current_line_index < length styled_lines)%nat ->
    fill_part fuel styled_lines line_heights current_line_index PADDING [] =
      Ok (index', h, lines) ->
    draw_lines font line_heights current_line_index (enumerate lines) PADDING [] =
      Ok drawn ->
    paginated font styled_lines line_heights img_width (part_number + 1) index'
      (after_part (part_of img_width part_number current_line_index lines h drawn) w)
      parts w' ->
    paginated font styled_lines line_heights img_width
      part_number current_line_index w
      (part_of img_width part_number current_line_index lines h drawn :: parts) w'.

(** * Properties *)

(** ** The script on small inputs *)

Example dirname_prefix : dirname OUTPUT_FILE_PREFIX = "output"%string.
Proof. reflexivity. Qed.

Example dirname_nested : dirname "/a//b/c.txt" = "/a//b"%string.
Proof. reflexivity. Qed.

Example dirname_plain : dirname "screenshot" = ""%string.
Proof. reflexivity. Qed.

Example style_lines_four :
  style_lines four_lines = ["$ ls -la"; "$ cd /tmp"; "$ whoami"; "$ exit"]%string.
Proof. reflexivity. Qed.

Example measure_lines_four :
  measure_lines font20 (style_lines four_lines) = (72, [20; 20; 20; 20]).
Proof. reflexivity. Qed.

(** No line: no part, no file. *)
Example main_no_line :
  main 2 font20 (world_of []) =
  (Ok [], {| fs := <["output"%string := Dir]> {[ INPUT_FILE := TextFile [] ]};
             stdout := []; stderr := [] |}).
Proof. reflexivity. Qed.

(** Three commands: one part of three lines, 20 + 3 * 25 + 20 high. *)
Example main_three_lines :
  part_sizes (main 5 font20 (world_of ["ls -la"; "cd /tmp"; "whoami"]%string)).1 =
  Ok [(3%nat, 115)].
Proof. vm_compute. reflexivity. Qed.

(** A single line higher than the maximum still makes a part of its own. *)
Example main_oversized_line :
  part_sizes (main 3 tall_font (world_of ["x"]%string)).1 = Ok [(1%nat, 945)].
Proof. vm_compute. reflexivity. Qed.

(** The file name of a part holds its number. *)
Example filename_of_12 : filename_of 12 = "output/screenshot_12.png"%string.
Proof. reflexivity. Qed.

(** ** Line measurer *)

Lemma style_lines_imap (lines : list string) :
  style_lines lines =
  imap (fun i line => if (i <? 3)%nat then PROMPT +:+ line else line) lines.
Proof.
  unfold style_lines, enumerate.
  enough (H : forall (l : list string) (k : nat) (acc : list string),
    fold_left
      (fun styled_lines '(i, line) =>
         if (i <? 3)%nat then styled_lines ++ [PROMPT +:+ line]
         else styled_lines ++ [line])
      (imap (fun i a => ((k + i)%nat, a)) l) acc =
    acc ++ imap (fun i line => if (k + i <? 3)%nat then PROMPT +:+ line else line) l).
  { apply (H lines 0%nat []). }
  induction l as [|x l IH]; intros k acc; simpl.
  - by rewrite app_nil_r.
  - rewrite Nat.add_0_r.
    rewrite (imap_ext _ (fun i a => ((S k + i)%nat, a)) l)
      by (intros; simpl; f_equal; lia).
    rewrite IH.
    rewrite (imap_ext (_ ∘ S)
               (fun i line => if (S k + i <? 3)%nat then PROMPT +:+ line else line) l)
      by (intros i y _; simpl; replace (k + S i)%nat with (S (k + i)) by lia; done).
    destruct (k <? 3)%nat; by rewrite <- app_assoc.
Qed.

Lemma style_lines_length (lines : list string) :
  length (style_lines lines) = length lines.
Proof. rewrite style_lines_imap. apply length_imap. Qed.

Lemma style_lines_lookup (lines : list string) (i : nat) :
  style_lines lines !! i =
  (fun line => if (i <? 3)%nat then PROMPT +:+ line else line) <$> lines !! i.
Proof. rewrite style_lines_imap. apply list_lookup_imap. Qed.

Lemma measure_lines_fold (font : Font) (l : list string) (m : Z) (hs : list Z) :
  fold_left
    (fun '(max_width, line_heights) line =>
       let '(width, height) := get_text_size font line in
       (Z.max max_width width, line_heights ++ [height]))
    l (m, hs) =
  (foldr (fun line acc => Z.max acc (get_text_size font line).1) m (reverse l),
   hs ++ map (fun line => (get_text_size font line).2) l).
Proof.
  revert m hs. induction l as [|x l IH]; intros m hs; simpl.
  - by rewrite app_nil_r.
  - destruct (get_text_size font x) as [wd ht] eqn:E. rewrite IH.
    rewrite reverse_cons, foldr_app. simpl. rewrite E. simpl.
    by rewrite <- app_assoc.
Qed.

Lemma measure_lines_heights (font : Font) (l : list string) :
  (measure_lines font l).2 = map (fun line => (get_text_size font line).2) l.
Proof. unfold measure_lines. by rewrite measure_lines_fold. Qed.

Lemma measure_lines_heights_length (font : Font) (l : list string) :
  length (measure_lines font l).2 = length l.
Proof. rewrite measure_lines_heights. apply length_map. Qed.

Lemma max_width_fold_ge (font : Font) (l : list string) (m : Z) :
  m <= foldr (fun line acc => Z.max acc (get_text_size font line).1) m l /\
  forall line, line ∈ l ->
    (get_text_size font line).1 <=
    foldr (fun line acc => Z.max acc (get_text_size font line).1) m l.
Proof.
  induction l as [|x l [IH1 IH2]]; simpl.
  - split; [lia|]. intros line H. by apply elem_of_nil in H.
  - split; [lia|]. intros line H. apply elem_of_cons in H as [->|H]; [lia|].
    specialize (IH2 line H). lia.
Qed.

Lemma max_width_fold_attained (font : Font) (l : list string) (m : Z) :
  foldr (fun line acc => Z.max acc (get_text_size font line).1) m l = m \/
  exists line, line ∈ l /\
    foldr (fun line acc => Z.max acc (get_text_size font line).1) m l =
    (get_text_size font line).1.
Proof.
  induction l as [|x l IH]; simpl; [by left|].
  destruct (Z.max_spec
              (foldr (fun line acc => Z.max acc (get_text_size font line).1) m l)
              (get_text_size font x).1) as [[_ ->]|[_ ->]].
  - right. exists x. split; [by left|done].
  - destruct IH as [IH|(line & Hin & IH)]; [by left|].
    right. exists line. split; [by right|done].
Qed.

(** ** The inner loop *)

Section FillPart.
Variable styled_lines : list string.
Variable line_heights : list Z.

Local Abbreviation fill := (spec_fill styled_lines line_heights LINE_SPACING MAX_IMAGE_HEIGHT).

(** Every successful run of the inner loop is a derivation of the
    reference relation. *)
Lemma fill_part_spec_fill fuel idx h part idx' h' part' :
  fill_part fuel styled_lines line_heights idx h part = Ok (idx', h', part') ->
  fill idx h part idx' h' part'.
Proof.
  revert idx h part. induction fuel as [|fuel IH]; intros idx h part; simpl; [done|].
  destruct (Nat.ltb_spec idx (length styled_lines)) as [Hlt|Hge].
  - unfold index at 1. destruct (line_heights !! idx) as [ht|] eqn:Hht; simpl; [|done].
    destruct (Z.gtb_spec (h + (ht + LINE_SPACING)) MAX_IMAGE_HEIGHT) as [Hgt|Hle]; simpl.
    + destruct part as [|x part]; simpl.
      * unfold index. destruct (styled_lines !! idx) as [line|] eqn:Hline; simpl; [|done].
        intros H. eapply spec_fill_add; eauto. intros [_ ?]; done.
      * intros [= <- <- <-]. eapply spec_fill_stop; eauto. lia.
    + unfold index. destruct (styled_lines !! idx) as [line|] eqn:Hline; simpl; [|done].
      intros H. eapply spec_fill_add; eauto. intros [? _]; lia.
  - intros [= <- <- <-]. by apply spec_fill_exhausted.
Qed.

(** With a height for every line, the inner loop returns within
    [length styled_lines - idx + 1] iterations. *)
Lemma fill_part_total fuel idx h part :
  length line_heights = length styled_lines ->
  (length styled_lines - idx < fuel)%nat ->
  exists r, fill_part fuel styled_lines line_heights idx h part = Ok r.
Proof.
  intros Hlen. revert idx h part.
  induction fuel as [|fuel IH]; intros idx h part Hfuel; [lia|]. simpl.
  destruct (Nat.ltb_spec idx (length styled_lines)) as [Hlt|Hge]; [|eauto].
  destruct (lookup_lt_is_Some_2 line_heights idx) as [ht Hht]; [lia|].
  destruct (lookup_lt_is_Some_2 styled_lines idx) as [line Hline]; [lia|].
  unfold index. rewrite Hht, Hline. simpl.
  destruct (_ && _); [eauto|]. apply IH. lia.
Qed.

(** The relation is a function of its start state. *)
Lemma spec_fill_det idx h part i1 h1 p1 i2 h2 p2 :
  fill idx h part i1 h1 p1 ->
  fill idx h part i2 h2 p2 ->
  i1 = i2 /\ h1 = h2 /\ p1 = p2.
Proof.
  intros H1. revert i2 h2 p2.
  induction H1 as [idx h part Hge|idx h part ht Hlt Hht Hgt Hne
                  |idx h part ht line i1 h1 p1 Hlt Hht Hline Hno _ IH];
    intros i2 h2 p2 H2; inversion H2; subst; try done; try (exfalso; lia);
    simplify_eq.
  - exfalso. match goal with H : ~ (_ /\ _) |- _ => apply H end. split; [lia|done].
  - exfalso. apply Hno. split; [lia|done].
  - by apply IH.
Qed.

(** The lines of a part are the lines from its start index to the index
    reached, and the index never leaves the list. *)
Lemma spec_fill_lines idx h part idx' h' part' :
  fill idx h part idx' h' part' ->
  (idx <= idx')%nat /\ (idx' <= Nat.max idx (length styled_lines))%nat /\
  part' = part ++ take (idx' - idx) (drop idx styled_lines).
Proof.
  induction 1 as [idx h part Hge|idx h part ht Hlt Hht Hgt Hne
                 |idx h part ht line i1 h1 p1 Hlt Hht Hline Hno _ (IH1 & IH2 & IH3)].
  - rewrite Nat.sub_diag, take_0, app_nil_r. repeat split; lia || done.
  - rewrite Nat.sub_diag, take_0, app_nil_r. repeat split; lia || done.
  - split; [lia|]. split; [lia|]. rewrite IH3, <- app_assoc. f_equal.
    replace (i1 - idx)%nat with (S (i1 - S idx)) by lia.
    rewrite (drop_S _ _ _ Hline). done.
Qed.

(** The first line of a part is always taken. *)
Lemma spec_fill_progress idx h idx' h' part' :
  fill idx h [] idx' h' part' ->
  (idx < length styled_lines)%nat ->
  (idx < idx')%nat.
Proof.
  intros H Hlt. inversion H; subst; try lia; try done.
  apply spec_fill_lines in H4. lia.
Qed.

(** The height accumulated is the start height plus height and spacing
    of every line taken. *)
Lemma spec_fill_height idx h part idx' h' part' :
  fill idx h part idx' h' part' ->
  h' = h + lines_height line_heights idx (idx' - idx).
Proof.
  unfold lines_height.
  induction 1 as [idx h part Hge|idx h part ht Hlt Hht Hgt Hne
                 |idx h part ht line i1 h1 p1 Hlt Hht Hline Hno Hrec IH].
  - rewrite Nat.sub_diag, take_0. simpl. lia.
  - rewrite Nat.sub_diag, take_0. simpl. lia.
  - apply spec_fill_lines in Hrec as (Hle & _ & _).
    replace (i1 - idx)%nat with (S (i1 - S idx)) by lia.
    rewrite (drop_S _ _ _ Hht). simpl. lia.
Qed.

(** The loop's guard keeps the accumulated height within
    [MAX_IMAGE_HEIGHT], unless no line or only the forced first line was
    taken. *)
Lemma spec_fill_bound idx h part idx' h' part' :
  fill idx h part idx' h' part' ->
  h' <= MAX_IMAGE_HEIGHT \/ (idx' = idx /\ h' = h) \/ (part = [] /\ idx' = S idx).
Proof.
  induction 1 as [idx h part Hge|idx h part ht Hlt Hht Hgt Hne
                 |idx h part ht line i1 h1 p1 Hlt Hht Hline Hno Hrec IH].
  - right; left; done.
  - right; left; done.
  - destruct IH as [IH|[[-> ->]|[Hnil _]]].
    + by left.
    + destruct part as [|x part].
      * right; right; done.
      * left. destruct (Z.gtb_spec (h + (ht + LINE_SPACING)) MAX_IMAGE_HEIGHT); [|lia].
        exfalso. apply Hno. split; [lia|done].
    + by destruct part.
Qed.
End FillPart.

(** ** Drawing the lines of a part *)

Lemma draw_lines_runs font line_heights start enumerated y drawn d :
  draw_lines font line_heights start enumerated y drawn = Ok d ->
  colour_runs d =
  colour_runs drawn ++ concat (map (fun '(_, line) => prefix_runs line) enumerated).
Proof.
  revert y drawn. induction enumerated as [|[i line] rest IH]; intros y drawn; simpl.
  - intros [= <-]. by rewrite app_nil_r.
  - unfold index. destruct (line_heights !! (start + i)%nat) as [ht|]; simpl; [|done].
    intros H. rewrite (IH _ _ H). unfold colour_runs at 1. rewrite map_app.
    rewrite <- app_assoc. f_equal. f_equal.
    unfold draw_line, prefix_runs.
    destruct (startswith line PROMPT); [|done].
    by destruct (get_text_size font PROMPT).
Qed.

Lemma draw_lines_total font line_heights start (l : list string) k y drawn :
  (start + k + length l <= length line_heights)%nat ->
  exists d,
    draw_lines font line_heights start (imap (fun i a => ((k + i)%nat, a)) l) y drawn
    = Ok d.
Proof.
  revert k y drawn. induction l as [|x l IH]; intros k y drawn Hlen; simpl in *.
  - eauto.
  - destruct (lookup_lt_is_Some_2 line_heights (start + (k + 0))%nat) as [ht Hht]; [lia|].
    unfold index. rewrite Hht. simpl.
    rewrite (imap_ext _ (fun i a => ((S k + i)%nat, a)) l)
      by (intros; simpl; f_equal; lia).
    apply IH. lia.
Qed.

Lemma enumerate_runs (l : list string) :
  concat (map (fun '(_, line) => prefix_runs line) (enumerate l)) =
  concat (map prefix_runs l).
Proof.
  unfold enumerate. f_equal.
  enough (H : forall (f : nat -> nat),
    map (fun '(_, line) => prefix_runs line) (imap (fun i a => (f i, a)) l)
    = map prefix_runs l) by apply (H id).
  induction l as [|x l IH]; intros f; simpl; [done|].
  f_equal. apply (IH (f ∘ S)).
Qed.

(** ** The outer loop *)

Section Paginate.
Variable font : Font.
Variable styled_lines : list string.
Variable line_heights : list Z.
Variable img_width : Z.

Local Abbreviation outer := (paginated font styled_lines line_heights img_width).
Local Abbreviation fill := (spec_fill styled_lines line_heights LINE_SPACING MAX_IMAGE_HEIGHT).

Lemma paginate_unfold fuel pn idx w :
  paginate (S fuel) font styled_lines line_heights img_width pn idx w =
  if (idx <? length styled_lines)%nat then
    match fill_part fuel styled_lines line_heights idx PADDING [] with
    | Ok (idx', h, lines) =>
        match draw_lines font line_heights idx (enumerate lines) PADDING [] with
        | Ok drawn =>
            let p := part_of img_width pn idx lines h drawn in
            let '(r, w') := paginate fuel font styled_lines line_heights img_width
                              (pn + 1) idx' (after_part p w) in
            (let? parts := r in Ok (p :: parts), w')
        | Raise e => (Raise e, w)
        | OutOfFuel => (OutOfFuel, w)
        end
    | Raise e => (Raise e, w)
    | OutOfFuel => (OutOfFuel, w)
    end
  else (Ok [], w).
Proof. reflexivity. Qed.

(** A run of the outer loop that returns is a chain of iterations. *)
Lemma paginate_paginated fuel pn idx w parts w' :
  paginate fuel font styled_lines line_heights img_width pn idx w = (Ok parts, w') ->
  outer pn idx w parts w'.
Proof.
  revert pn idx w parts. induction fuel as [|fuel IH]; intros pn idx w parts; [done|].
  rewrite paginate_unfold.
  destruct (Nat.ltb_spec idx (length styled_lines)) as [Hlt|Hge].
  - destruct (fill_part fuel _ _ _ _ _) as [[[idx' h] lines]| |] eqn:Hfill; try done.
    destruct (draw_lines _ _ _ _ _ _) as [drawn| |] eqn:Hdraw; try done.
    cbv zeta.
    destruct (paginate fuel _ _ _ _ _ _ _) as [[rest| |] w''] eqn:Hrec; simpl; try done.
    intros [= <- <-]. eapply paginated_part; eauto.
  - intros [= <- <-]. by apply paginated_done.
Qed.

(** With a height for every line the outer loop returns: each iteration
    moves the line index forward, so [length styled_lines - idx + 2] units
    of fuel are enough. *)
Lemma paginate_total fuel pn idx w :
  length line_heights = length styled_lines ->
  (length styled_lines - idx + 1 < fuel)%nat ->
  exists parts w',
    paginate fuel font styled_lines line_heights img_width pn idx w = (Ok parts, w').
Proof.
  intros Hlen. revert pn idx w.
  induction fuel as [|fuel IH]; intros pn idx w Hfuel; [lia|].
  rewrite paginate_unfold.
  destruct (Nat.ltb_spec idx (length styled_lines)) as [Hlt|Hge]; [|eauto].
  destruct (fill_part_total styled_lines line_heights fuel idx PADDING [] Hlen)
    as [[[idx' h] lines] Hfill]; [lia|].
  rewrite Hfill.
  pose proof (fill_part_spec_fill _ _ _ _ _ _ _ _ _ Hfill) as Hspec.
  pose proof (spec_fill_progress _ _ _ _ _ _ _ Hspec Hlt) as Hprog.
  destruct (spec_fill_lines _ _ _ _ _ _ _ _ Hspec) as (_ & Hmax & Hlines).
  simpl in Hlines.
  destruct (draw_lines_total font line_heights idx lines 0 PADDING []) as [drawn Hdraw].
  { subst lines. rewrite length_take, length_drop. lia. }
  unfold enumerate. simpl in Hdraw. rewrite Hdraw. cbv zeta.
  destruct (IH (pn + 1) idx'
              (after_part (part_of img_width pn idx lines h drawn) w))
    as (rest & w' & Hrec); [lia|].
  rewrite Hrec. simpl. eauto.
Qed.

(** More fuel does not change a result. *)
Lemma paginated_paginate pn idx w parts w' :
  outer pn idx w parts w' ->
  length line_heights = length styled_lines ->
  forall fuel, (length styled_lines - idx + 1 < fuel)%nat ->
    paginate fuel font styled_lines line_heights img_width pn idx w = (Ok parts, w').
Proof.
  intros H Hlen fuel Hfuel.
  destruct (paginate_total fuel pn idx w Hlen Hfuel) as (parts2 & w2 & Hrun).
  rewrite Hrun. apply paginate_paginated in Hrun.
  clear Hfuel. revert parts2 w2 Hrun.
  induction H as [pn idx w Hge|pn idx w f idx' h lines drawn parts w' Hlt Hfill Hdraw _ IH];
    intros parts2 w2 Hrun; inversion Hrun; subst; try (exfalso; lia); [done|].
  repeat match goal with
         | H : fill_part _ _ _ _ _ _ = _ |- _ => apply fill_part_spec_fill in H
         end.
  match goal with
  | H1 : fill _ _ _ _ _ _, H2 : fill _ _ _ _ _ _ |- _ =>
      destruct (spec_fill_det _ _ _ _ _ _ _ _ _ _ _ H1 H2) as (? & ? & ?)
  end.
  subst.
  match goal with
  | H1 : draw_lines _ _ _ _ _ _ = Ok ?a, H2 : draw_lines _ _ _ _ _ _ = Ok ?b |- _ =>
      assert (a = b) by congruence
  end.
  subst.
  match goal with H : outer _ _ _ _ _ |- _ => apply IH in H end.
  by simplify_eq.
Qed.

(** C2, on the loop: the lines of the parts, in order, are the lines from
    the start index on. *)
Lemma paginated_lines pn idx w parts w' :
  outer pn idx w parts w' ->
  concat (map lines_for_this_part parts) = drop idx styled_lines.
Proof.
  induction 1 as [pn idx w Hge|pn idx w f idx' h lines drawn parts w' Hlt Hfill Hdraw _ IH].
  - simpl. by rewrite drop_ge.
  - simpl. rewrite IH.
    apply fill_part_spec_fill, spec_fill_lines in Hfill as (Hle & _ & ->). simpl.
    replace idx' with (idx + (idx' - idx))%nat at 2 by lia.
    rewrite <- drop_drop. apply take_drop.
Qed.

(** C8, on the loop: every part takes at least one line, the next part
    starts where this one stopped, and there are at most as many parts as
    lines left. *)
Lemma paginated_progress pn idx w parts w' :
  outer pn idx w parts w' ->
  Forall (fun p => lines_for_this_part p <> []) parts /\
  (length parts <= length styled_lines - idx)%nat.
Proof.
  induction 1 as [pn idx w Hge|pn idx w f idx' h lines drawn parts w' Hlt Hfill Hdraw _
                 [IH1 IH2]].
  - split; [constructor|simpl; lia].
  - apply fill_part_spec_fill in Hfill.
    pose proof (spec_fill_progress _ _ _ _ _ _ _ Hfill Hlt) as Hprog.
    apply spec_fill_lines in Hfill as (_ & Hmax & Hlines). simpl in Hlines.
    split; [|simpl; lia].
    constructor; [|done]. simpl. intros Hnil.
    assert (Hl : length lines = (idx' - idx)%nat).
    { rewrite Hlines, length_take, length_drop. lia. }
    rewrite Hnil in Hl. simpl in Hl. lia.
Qed.

(** C7, on the loop. *)
Lemma paginated_width pn idx w parts w' :
  outer pn idx w parts w' ->
  Forall (fun p => im_width (img p) = img_width) parts.
Proof. induction 1; constructor; done. Qed.

(** C3, on the loop: what is drawn, line by line. *)
Lemma paginated_runs pn idx w parts w' :
  outer pn idx w parts w' ->
  drawn_runs parts = concat (map prefix_runs (concat (map lines_for_this_part parts))).
Proof.
  unfold drawn_runs.
  induction 1 as [pn idx w Hge|pn idx w f idx' h lines drawn parts w' Hlt Hfill Hdraw _ IH];
    [done|].
  simpl. rewrite IH, map_app, concat_app. f_equal.
  apply draw_lines_runs in Hdraw. rewrite Hdraw. simpl. apply enumerate_runs.
Qed.

(** Height of a part: both paddings plus height and spacing of each of
    its lines; within [MAX_IMAGE_HEIGHT + PADDING] unless the part is a
    single line. *)
Lemma paginated_heights pn idx w parts w' :
  outer pn idx w parts w' ->
  Forall (fun p =>
    part_height p =
      PADDING + lines_height line_heights (part_start_index p)
                  (length (lines_for_this_part p)) + PADDING /\
    im_height (img p) = part_height p /\
    (part_height p <= MAX_IMAGE_HEIGHT + PADDING \/
     length (lines_for_this_part p) = 1%nat)) parts.
Proof.
  induction 1 as [pn idx w Hge|pn idx w f idx' h lines drawn parts w' Hlt Hfill Hdraw _ IH];
    constructor; [|done].
  simpl. apply fill_part_spec_fill in Hfill.
  pose proof (spec_fill_height _ _ _ _ _ _ _ _ Hfill) as Hh.
  pose proof (spec_fill_bound _ _ _ _ _ _ _ _ Hfill) as Hb.
  pose proof (spec_fill_progress _ _ _ _ _ _ _ Hfill Hlt) as Hprog.
  apply spec_fill_lines in Hfill as (_ & Hmax & Hlines). simpl in Hlines.
  assert (Hl : length lines = (idx' - idx)%nat).
  { rewrite Hlines, length_take, length_drop. lia. }
  rewrite Hl. split; [lia|]. split; [done|].
  destruct Hb as [Hb|[[-> _]|[_ ->]]]; [left; lia|lia|right; lia].
Qed.

(** C5, on the loop: the parts are the pages of the reference algorithm. *)
Lemma paginated_spec_pages max_width pn idx w parts w' :
  img_width = max_width + 2 * PADDING ->
  outer pn idx w parts w' ->
  spec_pages styled_lines line_heights PADDING LINE_SPACING MAX_IMAGE_HEIGHT max_width
    idx pn (map page_of_part parts).
Proof.
  intros Hw.
  induction 1 as [pn idx w Hge|pn idx w f idx' h lines drawn parts w' Hlt Hfill Hdraw _ IH].
  - by constructor.
  - simpl. unfold page_of_part at 1. simpl. rewrite Hw.
    eapply spec_pages_emit; eauto using fill_part_spec_fill.
Qed.

Lemma spec_pages_det max_width idx pn pages1 pages2 :
  spec_pages styled_lines line_heights PADDING LINE_SPACING MAX_IMAGE_HEIGHT max_width
    idx pn pages1 ->
  spec_pages styled_lines line_heights PADDING LINE_SPACING MAX_IMAGE_HEIGHT max_width
    idx pn pages2 ->
  pages1 = pages2.
Proof.
  intros H1. revert pages2.
  induction H1 as [idx pn Hge|idx pn idx' h page rest Hlt Hfill _ IH];
    intros pages2 H2; inversion H2; subst; try (exfalso; lia); [done|].
  match goal with
  | H : spec_fill _ _ _ _ _ _ _ _ _ _ |- _ =>
      destruct (spec_fill_det _ _ _ _ _ _ _ _ _ _ _ Hfill H) as (? & ? & ?)
  end.
  subst. f_equal. by apply IH.
Qed.
End Paginate.

(** ** File names of the parts *)

Lemma str_of_int_inj (m n : Z) : str_of_int m = str_of_int n -> m = n.
Proof.
  unfold str_of_int. intros H. apply DecimalZ.to_int_inj.
  assert (Some (Z.to_int m) = Some (Z.to_int n)) as [= ->]; [|done].
  by rewrite <- !NilEmpty.isi, H.
Qed.

Lemma string_app_length (s t : string) :
  String.length (s +:+ t) = (String.length s + String.length t)%nat.
Proof. induction s as [|a s IH]; simpl; [done|]. by rewrite IH. Qed.

Lemma string_app_cons (a : ascii) (s t : string) :
  String a s +:+ t = String a (s +:+ t).
Proof. reflexivity. Qed.

Lemma string_app_inv_tail (s1 s2 t : string) : s1 +:+ t = s2 +:+ t -> s1 = s2.
Proof.
  revert s2. induction s1 as [|a s1 IH]; intros [|b s2] H; try done.
  - apply (f_equal String.length) in H. rewrite !string_app_length in H.
    simpl in H. lia.
  - apply (f_equal String.length) in H. rewrite !string_app_length in H.
    simpl in H. lia.
  - rewrite !string_app_cons in H. injection H as -> H. f_equal. by apply IH.
Qed.

Lemma filename_of_inj (m n : Z) : filename_of m = filename_of n -> m = n.
Proof.
  unfold filename_of, OUTPUT_FILE_PREFIX. simpl. intros H.
  apply str_of_int_inj, (string_app_inv_tail _ _ ".png"). by simplify_eq.
Qed.

Lemma filename_of_not_input (n : Z) : filename_of n <> INPUT_FILE.
Proof. unfold filename_of, OUTPUT_FILE_PREFIX, INPUT_FILE. simpl. intros H. simplify_eq. Qed.

(** ** What the outer loop leaves in the world *)

Section PaginateWorld.
Variable font : Font.
Variable styled_lines : list string.
Variable line_heights : list Z.
Variable img_width : Z.

Local Abbreviation outer := (paginated font styled_lines line_heights img_width).

(** Parts are numbered consecutively from the first part number. *)
Lemma paginated_numbers pn idx w parts w' :
  outer pn idx w parts w' ->
  forall i p, parts !! i = Some p ->
    part_number p = pn + Z.of_nat i /\ output_filename p = filename_of (part_number p).
Proof.
  induction 1 as [pn idx w Hge|pn idx w f idx' h lines drawn parts w' Hlt Hfill Hdraw _ IH];
    intros i p Hp; [done|].
  destruct i as [|i]; simpl in Hp.
  - injection Hp as <-. simpl. split; [lia|done].
  - destruct (IH i p Hp) as [-> ?]. split; [lia|done].
Qed.

(** Only files named after a part number from [pn] on are written, and
    the error stream is not touched. *)
Lemma paginated_frame pn idx w parts w' :
  outer pn idx w parts w' ->
  stderr w' = stderr w /\
  forall path, (forall k, pn <= k -> path <> filename_of k) -> fs w' !! path = fs w !! path.
Proof.
  induction 1 as [pn idx w Hge|pn idx w f idx' h lines drawn parts w' Hlt Hfill Hdraw _
                 [IH1 IH2]]; [done|].
  split; [by rewrite IH1|]. intros path Hpath.
  rewrite IH2 by (intros k Hk; apply Hpath; lia).
  simpl. apply lookup_insert_ne. intros Heq. by apply (Hpath pn); [lia|].
Qed.

(** Every part is saved under its file name, and one line per part is
    printed. *)
Lemma paginated_saved pn idx w parts w' :
  outer pn idx w parts w' ->
  (forall p, p ∈ parts -> fs w' !! output_filename p = Some (PngFile (img p))) /\
  stdout w' =
    stdout w ++ map (fun p => "Screenshot part saved to '" +:+ output_filename p +:+ "'") parts.
Proof.
  induction 1 as [pn idx w Hge|pn idx w f idx' h lines drawn parts w' Hlt Hfill Hdraw Hrec
                 [IH1 IH2]].
  - split; [|by rewrite app_nil_r]. intros p Hp. by apply elem_of_nil in Hp.
  - split.
    + intros p [->|Hp]%elem_of_cons; [|by apply IH1].
      destruct (paginated_frame _ _ _ _ _ Hrec) as [_ Hframe].
      rewrite Hframe.
      * simpl. apply lookup_insert_eq.
      * simpl. intros k Hk Heq. apply filename_of_inj in Heq. lia.
    + rewrite IH2. simpl. by rewrite <- app_assoc.
Qed.
End PaginateWorld.

(** ** The output directory and the transcript *)

Lemma dirname_output : dirname OUTPUT_FILE_PREFIX = "output"%string.
Proof. reflexivity. Qed.

Lemma ensure_output_dir_fs (w : World) :
  fs (ensure_output_dir w) =
  match fs w !! "output"%string with
  | Some _ => fs w
  | None => <["output"%string := Dir]> (fs w)
  end.
Proof.
  unfold ensure_output_dir. rewrite dirname_output. unfold path_exists. simpl.
  by destruct (fs w !! "output"%string).
Qed.

Lemma ensure_output_dir_streams (w : World) :
  stdout (ensure_output_dir w) = stdout w /\ stderr (ensure_output_dir w) = stderr w.
Proof. unfold ensure_output_dir. by destruct (_ && _). Qed.

Lemma ensure_output_dir_lookup (w : World) (path : string) :
  path <> "output"%string -> fs (ensure_output_dir w) !! path = fs w !! path.
Proof.
  intros Hne. rewrite ensure_output_dir_fs.
  destruct (fs w !! "output"%string); [done|]. by apply lookup_insert_ne.
Qed.

Lemma ensure_output_dir_exists (w : World) :
  is_Some (fs (ensure_output_dir w) !! "output"%string).
Proof.
  rewrite ensure_output_dir_fs.
  destruct (fs w !! "output"%string) eqn:E; [by rewrite E|].
  rewrite lookup_insert_eq. eauto.
Qed.

(** [main] on a world that holds the transcript: its outer loop runs on
    the styled lines and their measurements. *)
Lemma main_paginate fuel font w lines :
  fs w !! INPUT_FILE = Some (TextFile lines) ->
  main fuel font w =
  paginate fuel font (displayed_lines lines) (heights font lines)
    (max_width font lines + PADDING * 2) 1 0%nat (ensure_output_dir w).
Proof.
  intros Hfile. unfold main, read_lines.
  rewrite ensure_output_dir_lookup by done. rewrite Hfile.
  unfold displayed_lines, heights, max_width.
  by destruct (measure_lines font (style_lines lines)).
Qed.

Lemma main_paginated fuel font w lines :
  fs w !! INPUT_FILE = Some (TextFile lines) ->
  (length lines + 1 < fuel)%nat ->
  exists parts w',
    main fuel font w = (Ok parts, w') /\
    paginated font (displayed_lines lines) (heights font lines)
      (max_width font lines + PADDING * 2) 1 0%nat (ensure_output_dir w) parts w'.
Proof.
  intros Hfile Hfuel. rewrite (main_paginate _ _ _ _ Hfile).
  destruct (paginate_total font (displayed_lines lines) (heights font lines)
              (max_width font lines + PADDING * 2) fuel 1 0%nat (ensure_output_dir w))
    as (parts & w' & Hrun).
  - unfold heights, displayed_lines. apply measure_lines_heights_length.
  - unfold displayed_lines. rewrite style_lines_length. lia.
  - exists parts, w'. split; [done|]. by apply paginate_paginated in Hrun.
Qed.

Lemma paginated_starts font styled_lines line_heights img_width pn idx w parts w' :
  paginated font styled_lines line_heights img_width pn idx w parts w' ->
  forall i p, parts !! i = Some p ->
    part_start_index p =
    (idx + length (concat (map lines_for_this_part (take i parts))))%nat.
Proof.
  induction 1 as [pn idx w Hge|pn idx w f idx' h lines drawn parts w' Hlt Hfill Hdraw _ IH];
    intros i p Hp; [done|].
  destruct i as [|i]; simpl in Hp.
  - injection Hp as <-. simpl. lia.
  - rewrite (IH i p Hp). simpl. rewrite length_app.
    apply fill_part_spec_fill in Hfill.
    pose proof (spec_fill_progress _ _ _ _ _ _ _ Hfill Hlt) as Hprog.
    apply spec_fill_lines in Hfill as (_ & Hmax & Hlines). simpl in Hlines.
    assert (Hl : length lines = (idx' - idx)%nat).
    { rewrite Hlines, length_take, length_drop. lia. }
    lia.
Qed.

(** * The properties of the specification *)

(** ** Pagination *)

(** The height of every part of a run of [main] is both paddings plus
    height and spacing of each of its lines; it is the height of the image;
    and it stays within [MAX_IMAGE_HEIGHT + PADDING], the bottom padding
    being added after the loop's guard, unless the part is a single line. *)
Lemma main_part_heights fuel font w lines :
  fs w !! INPUT_FILE = Some (TextFile lines) ->
  (length lines + 1 < fuel)%nat ->
  exists parts w',
    main fuel font w = (Ok parts, w') /\
    Forall (fun p =>
      part_height p =
        PADDING + lines_height (heights font lines) (part_start_index p)
                    (length (lines_for_this_part p)) + PADDING /\
      im_height (img p) = part_height p /\
      (part_height p <= MAX_IMAGE_HEIGHT + PADDING \/
       length (lines_for_this_part p) = 1%nat)) parts.
Proof.
  intros Hfile Hfuel.
  destruct (main_paginated fuel font w lines Hfile Hfuel) as (parts & w' & Hrun & Hp).
  exists parts, w'. split; [done|]. by apply paginated_heights in Hp.
Qed.

(** C1: the specification bounds the height of every part of more than
    one line by [MAX_IMAGE_HEIGHT].  On one hundred lines of height 20 the script
    makes parts of 31 lines whose height, 20 + 31 * (20 + 5) + 20 = 815, is
    above [MAX_IMAGE_HEIGHT] = 800, although no line is higher than 20. *)
Theorem C1_part_height_exceeds_max :
  part_sizes (main 102 font20 (world_of hundred_lines)).1 =
    Ok [(31%nat, 815); (31%nat, 815); (31%nat, 815); (7%nat, 215)] /\
  heights font20 hundred_lines = replicate 100 20 /\
  PADDING + lines_height (heights font20 hundred_lines) 0 31 + PADDING = 815 /\
  MAX_IMAGE_HEIGHT < 815.
Proof. repeat split; vm_compute; reflexivity. Qed.

(** C2: the lines of the parts, concatenated in the order the parts are
    produced, are the displayed lines: each once, in the original order. *)
Theorem C2_parts_cover_displayed_lines fuel font w lines :
  fs w !! INPUT_FILE = Some (TextFile lines) ->
  (length lines + 1 < fuel)%nat ->
  exists parts w',
    main fuel font w = (Ok parts, w') /\
    concat (map lines_for_this_part parts) = displayed_lines lines.
Proof.
  intros Hfile Hfuel.
  destruct (main_paginated fuel font w lines Hfile Hfuel) as (parts & w' & Hrun & Hp).
  exists parts, w'. split; [done|]. by apply paginated_lines in Hp.
Qed.

Lemma C2_witness :
  fs (world_of four_lines) !! INPUT_FILE = Some (TextFile four_lines) /\
  (length four_lines + 1 < 6)%nat /\
  exists parts w',
    main 6 font20 (world_of four_lines) = (Ok parts, w') /\
    concat (map lines_for_this_part parts) = displayed_lines four_lines.
Proof.
  split; [reflexivity|]. split; [simpl; lia|].
  apply (C2_parts_cover_displayed_lines 6 font20 (world_of four_lines) four_lines);
    [reflexivity|simpl; lia].
Defined.

(** C4: on one hundred lines of height 20, with spacing 5, padding 20 and
    a maximum height of 800, the script makes four parts of 31, 31, 31 and
    7 lines, not of 30, 30, 30 and 10 as the specification has it. *)
Theorem C4_hundred_lines_line_counts :
  LINE_SPACING = 5 /\ PADDING = 20 /\ MAX_IMAGE_HEIGHT = 800 /\
  heights font20 hundred_lines = replicate 100 20 /\
  line_counts (main 102 font20 (world_of hundred_lines)).1 =
    Ok [31%nat; 31%nat; 31%nat; 7%nat] /\
  line_counts (main 102 font20 (world_of hundred_lines)).1 <>
    Ok [30%nat; 30%nat; 30%nat; 10%nat].
Proof.
  repeat split; try (vm_compute; reflexivity).
  vm_compute. discriminate.
Qed.

(** C5: the parts [main] produces are the pages of the reference
    algorithm of the specification, and its only pages. *)
Theorem C5_pagination_is_reference_algorithm fuel font w lines :
  fs w !! INPUT_FILE = Some (TextFile lines) ->
  (length lines + 1 < fuel)%nat ->
  exists parts w',
    main fuel font w = (Ok parts, w') /\
    forall pages,
      spec_pages (displayed_lines lines) (heights font lines)
        PADDING LINE_SPACING MAX_IMAGE_HEIGHT (max_width font lines) 0 1 pages
      <-> pages = map page_of_part parts.
Proof.
  intros Hfile Hfuel.
  destruct (main_paginated fuel font w lines Hfile Hfuel) as (parts & w' & Hrun & Hp).
  exists parts, w'. split; [done|].
  apply (paginated_spec_pages _ _ _ _ (max_width font lines)) in Hp; [|lia].
  intros pages. split.
  - intros H. eapply spec_pages_det; eauto.
  - by intros ->.
Qed.

Lemma C5_witness :
  fs (world_of four_lines) !! INPUT_FILE = Some (TextFile four_lines) /\
  (length four_lines + 1 < 6)%nat /\
  exists parts w',
    main 6 font20 (world_of four_lines) = (Ok parts, w') /\
    forall pages,
      spec_pages (displayed_lines four_lines) (heights font20 four_lines)
        PADDING LINE_SPACING MAX_IMAGE_HEIGHT (max_width font20 four_lines) 0 1 pages
      <-> pages = map page_of_part parts.
Proof.
  split; [reflexivity|]. split; [simpl; lia|].
  apply (C5_pagination_is_reference_algorithm 6 font20 (world_of four_lines) four_lines);
    [reflexivity|simpl; lia].
Defined.

(** C8: the pagination loop returns, with the same result for every
    amount of fuel above the number of lines plus one; every part takes at
    least one line and starts where the parts before it stopped; so there
    are at most as many parts as lines. *)
Theorem C8_pagination_terminates font w lines :
  fs w !! INPUT_FILE = Some (TextFile lines) ->
  exists parts w',
    (forall fuel, (length lines + 1 < fuel)%nat -> main fuel font w = (Ok parts, w')) /\
    Forall (fun p => lines_for_this_part p <> []) parts /\
    (forall i p, parts !! i = Some p ->
       part_start_index p = length (concat (map lines_for_this_part (take i parts)))) /\
    (length parts <= length lines)%nat.
Proof.
  intros Hfile.
  destruct (main_paginated (length lines + 2) font w lines Hfile) as (parts & w' & _ & Hp);
    [lia|].
  exists parts, w'. split; [|split; [|split]].
  - intros fuel Hfuel. rewrite (main_paginate _ _ _ _ Hfile).
    apply paginated_paginate; [done| |].
    + unfold heights, displayed_lines. apply measure_lines_heights_length.
    + unfold displayed_lines. rewrite style_lines_length. lia.
  - by apply paginated_progress in Hp as [? _].
  - intros i p Hi. by rewrite (paginated_starts _ _ _ _ _ _ _ _ _ Hp i p Hi).
  - apply paginated_progress in Hp as [_ Hp].
    unfold displayed_lines in Hp. rewrite style_lines_length in Hp. lia.
Qed.

Lemma C8_witness :
  fs (world_of four_lines) !! INPUT_FILE = Some (TextFile four_lines) /\
  exists parts w',
    (forall fuel, (length four_lines + 1 < fuel)%nat ->
       main fuel font20 (world_of four_lines) = (Ok parts, w')) /\
    Forall (fun p => lines_for_this_part p <> []) parts /\
    (forall i p, parts !! i = Some p ->
       part_start_index p = length (concat (map lines_for_this_part (take i parts)))) /\
    (length parts <= length four_lines)%nat.
Proof.
  split; [reflexivity|].
  apply (C8_pagination_terminates font20 (world_of four_lines) four_lines). reflexivity.
Defined.

(** ** Rendering *)

Lemma prefix_runs_prompted (raw : string) :
  prefix_runs ("$ " +:+ raw) = [("$ "%string, PROMPT_COLOR); (raw, TEXT_COLOR)].
Proof.
  unfold prefix_runs, startswith, PROMPT. rewrite !string_app_cons. simpl.
  by destruct raw.
Qed.

(** C3, as the script has it: a displayed line is drawn with a leading
    prompt in the prompt colour, and the text after it in the text colour,
    when it starts with the prompt string, and whole in the text colour
    otherwise.  The first three lines start with the prompt; a later line
    does when its raw text does. *)
Theorem C3_prompt_colour_by_prefix fuel font w lines :
  fs w !! INPUT_FILE = Some (TextFile lines) ->
  (length lines + 1 < fuel)%nat ->
  exists parts w',
    main fuel font w = (Ok parts, w') /\
    drawn_runs parts = concat (map prefix_runs (displayed_lines lines)) /\
    forall i raw, lines !! i = Some raw ->
      exists line,
        displayed_lines lines !! i = Some line /\
        ((i < 3)%nat ->
           prefix_runs line = [("$ "%string, PROMPT_COLOR); (raw, TEXT_COLOR)]) /\
        ((3 <= i)%nat -> startswith raw "$ " = false ->
           prefix_runs line = [(raw, TEXT_COLOR)]) /\
        ((3 <= i)%nat -> startswith raw "$ " = true ->
           prefix_runs line =
             [("$ "%string, PROMPT_COLOR); (slice_from 2 raw, TEXT_COLOR)]).
Proof.
  intros Hfile Hfuel.
  destruct (main_paginated fuel font w lines Hfile Hfuel) as (parts & w' & Hrun & Hp).
  exists parts, w'. split; [done|]. split.
  - rewrite (paginated_runs _ _ _ _ _ _ _ _ _ Hp).
    by rewrite (paginated_lines _ _ _ _ _ _ _ _ _ Hp).
  - intros i raw Hraw. unfold displayed_lines.
    rewrite style_lines_lookup, Hraw. simpl.
    destruct (Nat.ltb_spec i 3) as [Hlt|Hge].
    + exists (PROMPT +:+ raw). split; [done|]. split; [|split]; try lia.
      intros _. apply prefix_runs_prompted.
    + exists raw. split; [done|]. split; [|split]; try lia.
      * intros _ Hno. unfold prefix_runs, PROMPT. by rewrite Hno.
      * intros _ Hyes. unfold prefix_runs, PROMPT. by rewrite Hyes.
Qed.

Lemma C3_witness :
  fs (world_of four_lines) !! INPUT_FILE = Some (TextFile four_lines) /\
  (length four_lines + 1 < 6)%nat /\
  exists parts w',
    main 6 font20 (world_of four_lines) = (Ok parts, w') /\
    drawn_runs parts = concat (map prefix_runs (displayed_lines four_lines)) /\
    forall i raw, four_lines !! i = Some raw ->
      exists line,
        displayed_lines four_lines !! i = Some line /\
        ((i < 3)%nat ->
           prefix_runs line = [("$ "%string, PROMPT_COLOR); (raw, TEXT_COLOR)]) /\
        ((3 <= i)%nat -> startswith raw "$ " = false ->
           prefix_runs line = [(raw, TEXT_COLOR)]) /\
        ((3 <= i)%nat -> startswith raw "$ " = true ->
           prefix_runs line =
             [("$ "%string, PROMPT_COLOR); (slice_from 2 raw, TEXT_COLOR)]).
Proof.
  split; [reflexivity|]. split; [simpl; lia|].
  apply (C3_prompt_colour_by_prefix 6 font20 (world_of four_lines) four_lines);
    [reflexivity|simpl; lia].
Defined.

(** C3, as the specification has it, fails: of the four lines [ls -la], [cd /tmp],
    [whoami] and [$ exit], the fourth, at index 3, is drawn with its prompt
    in the prompt colour, so what is drawn is not what colouring by index
    gives. *)
Lemma C3_counterexample :
  exists runs,
    res_runs (main 6 font20 (world_of four_lines)).1 = Ok runs /\
    runs !! 6%nat = Some ("$ "%string, PROMPT_COLOR) /\
    runs !! 7%nat = Some ("exit"%string, TEXT_COLOR) /\
    concat (imap index_runs (displayed_lines four_lines)) !! 6%nat =
      Some ("$ exit"%string, TEXT_COLOR) /\
    runs <> concat (imap index_runs (displayed_lines four_lines)).
Proof.
  exists [("$ ", PROMPT_COLOR); ("ls -la", TEXT_COLOR);
          ("$ ", PROMPT_COLOR); ("cd /tmp", TEXT_COLOR);
          ("$ ", PROMPT_COLOR); ("whoami", TEXT_COLOR);
          ("$ ", PROMPT_COLOR); ("exit", TEXT_COLOR)]%string.
  repeat split; try (vm_compute; reflexivity).
  vm_compute. discriminate.
Qed.

(** ** Line measurer *)

(** C6: a displayed line is the raw line, with the prompt ["$ "] in front
    when it is one of the first three; and, widths being those of bounding
    boxes and so not negative, [max_width] is the largest width of a
    displayed line, or 0 when there is no line. *)
Theorem C6_displayed_lines_and_max_width font lines :
  (forall text, 0 <= (get_text_size font text).1) ->
  length (displayed_lines lines) = length lines /\
  (forall i raw, lines !! i = Some raw ->
     displayed_lines lines !! i = Some (if (i <? 3)%nat then "$ " +:+ raw else raw)) /\
  (forall line, line ∈ displayed_lines lines ->
     (get_text_size font line).1 <= max_width font lines) /\
  (lines = [] -> max_width font lines = 0) /\
  (lines <> [] ->
     exists line, line ∈ displayed_lines lines /\
       max_width font lines = (get_text_size font line).1).
Proof.
  intros Hpos. unfold displayed_lines, max_width, measure_lines.
  rewrite measure_lines_fold. simpl.
  split; [apply style_lines_length|]. split; [|split; [|split]].
  - intros i raw Hraw. by rewrite style_lines_lookup, Hraw.
  - intros line Hin.
    apply (max_width_fold_ge font (reverse (style_lines lines)) 0).
    by apply elem_of_reverse.
  - by intros ->.
  - intros Hne.
    destruct (max_width_fold_attained font (reverse (style_lines lines)) 0)
      as [H0|(line & Hin & Hmax)].
    + destruct (style_lines lines) as [|line rest] eqn:E.
      { apply (f_equal length) in E. rewrite style_lines_length in E.
        by destruct lines. }
      exists line. split; [by left|]. rewrite H0.
      pose proof (proj2 (max_width_fold_ge font (reverse (line :: rest)) 0) line) as Hge.
      rewrite H0 in Hge. specialize (Hpos line).
      assert (line ∈ reverse (line :: rest)) by (apply elem_of_reverse; by left).
      specialize (Hge H). lia.
    + exists line. split; [by apply elem_of_reverse|done].
Qed.

Lemma C6_witness :
  (forall text, 0 <= (get_text_size font20 text).1) /\
  length (displayed_lines four_lines) = length four_lines /\
  (forall i raw, four_lines !! i = Some raw ->
     displayed_lines four_lines !! i =
       Some (if (i <? 3)%nat then "$ " +:+ raw else raw)) /\
  (forall line, line ∈ displayed_lines four_lines ->
     (get_text_size font20 line).1 <= max_width font20 four_lines) /\
  (four_lines = [] -> max_width font20 four_lines = 0) /\
  (four_lines <> [] ->
     exists line, line ∈ displayed_lines four_lines /\
       max_width font20 four_lines = (get_text_size font20 line).1).
Proof.
  assert (H : forall text, 0 <= (get_text_size font20 text).1).
  { intros text. simpl. lia. }
  split; [exact H|].
  apply (C6_displayed_lines_and_max_width font20 four_lines H).
Defined.

(** C7: every part's image has the same width, [max_width] plus twice the
    padding, and is the image saved under the part's file name. *)
Theorem C7_image_width fuel font w lines :
  fs w !! INPUT_FILE = Some (TextFile lines) ->
  (length lines + 1 < fuel)%nat ->
  exists parts w',
    main fuel font w = (Ok parts, w') /\
    forall p, p ∈ parts ->
      im_width (img p) = max_width font lines + 2 * PADDING /\
      fs w' !! output_filename p = Some (PngFile (img p)).
Proof.
  intros Hfile Hfuel.
  destruct (main_paginated fuel font w lines Hfile Hfuel) as (parts & w' & Hrun & Hp).
  exists parts, w'. split; [done|]. intros p Hin. split.
  - pose proof (paginated_width _ _ _ _ _ _ _ _ _ Hp) as Hw.
    rewrite Forall_forall in Hw. rewrite (Hw p Hin). lia.
  - by apply (paginated_saved _ _ _ _ _ _ _ _ _ Hp).
Qed.

Lemma C7_witness :
  fs (world_of four_lines) !! INPUT_FILE = Some (TextFile four_lines) /\
  (length four_lines + 1 < 6)%nat /\
  exists parts w',
    main 6 font20 (world_of four_lines) = (Ok parts, w') /\
    forall p, p ∈ parts ->
      im_width (img p) = max_width font20 four_lines + 2 * PADDING /\
      fs w' !! output_filename p = Some (PngFile (img p)).
Proof.
  split; [reflexivity|]. split; [simpl; lia|].
  apply (C7_image_width 6 font20 (world_of four_lines) four_lines);
    [reflexivity|simpl; lia].
Defined.

(** ** Missing transcript *)

Lemma select_font_selected pil w :
  select_font pil w = (selected_font pil, after_font_selection pil w).
Proof.
  unfold select_font, selected_font, after_font_selection, font_missing, font_message.
  destruct (truetype pil) as [f|e]; [done|].
  destruct (is_io_error e); [|done].
  by destruct (load_default_sized pil) as [f|[]].
Qed.

Lemma script_selected fuel pil w :
  script fuel pil w =
  match selected_font pil with
  | inl font => main fuel font (after_font_selection pil w)
  | inr e => (Raise e, after_font_selection pil w)
  end.
Proof. unfold script. by rewrite select_font_selected. Qed.

Lemma after_font_selection_world pil w :
  fs (after_font_selection pil w) = fs w /\
  stdout (after_font_selection pil w) = stdout w /\
  stderr (after_font_selection pil w) =
    stderr w ++ (if font_missing pil then [font_message] else []).
Proof.
  unfold after_font_selection. destruct (font_missing pil); simpl; [done|].
  by rewrite app_nil_r.
Qed.

Lemma dirname_input : dirname INPUT_FILE = "output"%string.
Proof. reflexivity. Qed.

(** With nothing at the transcript's path, and a directory or nothing at
    the output directory's, [open] raises [FileNotFoundError] and [main]
    exits. *)
Lemma main_missing_input fuel font w :
  fs w !! INPUT_FILE = None ->
  fs w !! "output"%string = None \/ fs w !! "output"%string = Some Dir ->
  main fuel font w = (Raise (SystemExit 1), eprint not_found_message (ensure_output_dir w)).
Proof.
  intros Hfile Hdir. unfold main, read_lines.
  rewrite ensure_output_dir_lookup by done. rewrite Hfile, dirname_input.
  rewrite ensure_output_dir_fs.
  destruct Hdir as [Hdir|Hdir]; rewrite Hdir; [by rewrite lookup_insert_eq|].
  by rewrite Hdir.
Qed.

Lemma missing_input_world fuel font w :
  fs w !! INPUT_FILE = None ->
  fs w !! "output"%string = None \/ fs w !! "output"%string = Some Dir ->
  exists w',
    main fuel font w = (Raise (SystemExit 1), w') /\
    exit_status (main fuel font w).1 = Some 1 /\
    last (stderr w') = Some not_found_message /\
    stdout w' = stdout w /\
    stderr w' = stderr w ++ [not_found_message] /\
    fs w' = fs (ensure_output_dir w).
Proof.
  intros Hfile Hdir. rewrite (main_missing_input fuel font w Hfile Hdir).
  eexists. split; [done|]. split; [done|]. simpl.
  destruct (ensure_output_dir_streams w) as [-> ->].
  split; [apply last_snoc|done].
Qed.

Lemma ensure_output_dir_no_image (w : World) path image :
  fs (ensure_output_dir w) !! path = Some (PngFile image) ->
  fs w !! path = Some (PngFile image).
Proof.
  rewrite ensure_output_dir_fs.
  destruct (fs w !! "output"%string) eqn:E; [done|].
  destruct (decide (path = "output"%string)) as [->|Hne].
  - by rewrite lookup_insert_eq.
  - by rewrite lookup_insert_ne.
Qed.

(** C9: without the transcript, the output directory's path holding a
    directory or nothing, [main] prints a message on the error stream and
    exits with status 1, whatever the font; it prints nothing on the
    output stream and leaves no image file that was not there before.  So
    does the script, when font selection gave it a font. *)
Theorem C9_missing_input_fails fuel pil w :
  fs w !! INPUT_FILE = None ->
  fs w !! "output"%string = None \/ fs w !! "output"%string = Some Dir ->
  (forall font, exists w',
     main fuel font w = (Raise (SystemExit 1), w') /\
     exit_status (main fuel font w).1 = Some 1 /\
     last (stderr w') = Some not_found_message /\
     stdout w' = stdout w /\
     forall path image, fs w' !! path = Some (PngFile image) ->
       fs w !! path = Some (PngFile image)) /\
  (forall font, selected_font pil = inl font -> exists w',
     script fuel pil w = (Raise (SystemExit 1), w') /\
     exit_status (script fuel pil w).1 = Some 1 /\
     last (stderr w') = Some not_found_message /\
     stdout w' = stdout w /\
     forall path image, fs w' !! path = Some (PngFile image) ->
       fs w !! path = Some (PngFile image)).
Proof.
  intros Hfile Hdir. split.
  - intros font.
    destruct (missing_input_world fuel font w Hfile Hdir)
      as (w' & Hrun & Hexit & Hlast & Hout & _ & Hfs).
    exists w'. repeat split; try done.
    intros path image. rewrite Hfs. apply ensure_output_dir_no_image.
  - intros font Hsel. rewrite script_selected, Hsel.
    destruct (after_font_selection_world pil w) as (Hfs0 & Hout0 & _).
    destruct (missing_input_world fuel font (after_font_selection pil w))
      as (w' & Hrun & Hexit & Hlast & Hout & _ & Hfs);
      [by rewrite Hfs0|by rewrite Hfs0|].
    exists w'. repeat split; try done.
    + by rewrite Hout.
    + intros path image. rewrite Hfs. intros H.
      apply ensure_output_dir_no_image in H. by rewrite Hfs0 in H.
Qed.

Lemma C9_witness :
  fs empty_world !! INPUT_FILE = None /\
  (fs empty_world !! "output"%string = None \/
   fs empty_world !! "output"%string = Some Dir) /\
  (forall font, exists w',
     main 5 font empty_world = (Raise (SystemExit 1), w') /\
     exit_status (main 5 font empty_world).1 = Some 1 /\
     last (stderr w') = Some not_found_message /\
     stdout w' = stdout empty_world /\
     forall path image, fs w' !! path = Some (PngFile image) ->
       fs empty_world !! path = Some (PngFile image)) /\
  (forall font, selected_font pillow20 = inl font -> exists w',
     script 5 pillow20 empty_world = (Raise (SystemExit 1), w') /\
     exit_status (script 5 pillow20 empty_world).1 = Some 1 /\
     last (stderr w') = Some not_found_message /\
     stdout w' = stdout empty_world /\
     forall path image, fs w' !! path = Some (PngFile image) ->
       fs empty_world !! path = Some (PngFile image)).
Proof.
  split; [reflexivity|]. split; [left; reflexivity|].
  apply (C9_missing_input_fails 5 pillow20 empty_world); [reflexivity|left; reflexivity].
Defined.

(** C10: the output directory is made before the transcript is opened:
    when neither is there, [main] exits with status 1, whatever the font,
    and the world it leaves has the directory.  So does the script, when
    font selection gave it a font. *)
Theorem C10_output_dir_created_before_failure fuel pil w :
  fs w !! "output"%string = None ->
  fs w !! INPUT_FILE = None ->
  dirname OUTPUT_FILE_PREFIX = "output"%string /\
  (forall font, exists w',
     main fuel font w = (Raise (SystemExit 1), w') /\
     exit_status (main fuel font w).1 = Some 1 /\
     fs w' = <["output"%string := Dir]> (fs w) /\
     fs w' !! "output"%string = Some Dir) /\
  (forall font, selected_font pil = inl font -> exists w',
     script fuel pil w = (Raise (SystemExit 1), w') /\
     exit_status (script fuel pil w).1 = Some 1 /\
     fs w' = <["output"%string := Dir]> (fs w) /\
     fs w' !! "output"%string = Some Dir).
Proof.
  intros Hdir Hfile. split; [done|]. split.
  - intros font.
    destruct (missing_input_world fuel font w Hfile (or_introl Hdir))
      as (w' & Hrun & Hexit & _ & _ & _ & Hfs).
    exists w'. rewrite Hfs, ensure_output_dir_fs, Hdir.
    repeat split; try done. apply lookup_insert_eq.
  - intros font Hsel. rewrite script_selected, Hsel.
    destruct (after_font_selection_world pil w) as (Hfs0 & _ & _).
    destruct (missing_input_world fuel font (after_font_selection pil w))
      as (w' & Hrun & Hexit & _ & _ & _ & Hfs);
      [by rewrite Hfs0|left; by rewrite Hfs0|].
    exists w'. rewrite Hfs, ensure_output_dir_fs, Hfs0, Hdir.
    repeat split; try done. apply lookup_insert_eq.
Qed.

Lemma C10_witness :
  fs empty_world !! "output"%string = None /\
  fs empty_world !! INPUT_FILE = None /\
  dirname OUTPUT_FILE_PREFIX = "output"%string /\
  (forall font, exists w',
     main 5 font empty_world = (Raise (SystemExit 1), w') /\
     exit_status (main 5 font empty_world).1 = Some 1 /\
     fs w' = <["output"%string := Dir]> (fs empty_world) /\
     fs w' !! "output"%string = Some Dir) /\
  (forall font, selected_font pillow20 = inl font -> exists w',
     script 5 pillow20 empty_world = (Raise (SystemExit 1), w') /\
     exit_status (script 5 pillow20 empty_world).1 = Some 1 /\
     fs w' = <["output"%string := Dir]> (fs empty_world) /\
     fs w' !! "output"%string = Some Dir).
Proof.
  split; [reflexivity|]. split; [reflexivity|].
  apply (C10_output_dir_created_before_failure 5 pillow20 empty_world); reflexivity.
Defined.

(** * Further properties of the script *)

(** ** Heights of runs of lines *)

Lemma lines_height_0 (line_heights : list Z) (start : nat) :
  lines_height line_heights start 0 = 0.
Proof. unfold lines_height. by rewrite take_0. Qed.

Lemma lines_height_S (line_heights : list Z) (start n : nat) (h : Z) :
  line_heights !! start = Some h ->
  lines_height line_heights start (S n) =
  (h + LINE_SPACING) + lines_height line_heights (S start) n.
Proof. intros Hh. unfold lines_height. by rewrite (drop_S _ _ _ Hh). Qed.

Lemma lines_height_ge (line_heights : list Z) (start n : nat) :
  (forall j h, line_heights !! j = Some h -> 0 <= h) ->
  (start + n <= length line_heights)%nat ->
  LINE_SPACING * Z.of_nat n <= lines_height line_heights start n.
Proof.
  intros Hpos. revert start. induction n as [|n IH]; intros start Hlen.
  - rewrite lines_height_0. lia.
  - destruct (lookup_lt_is_Some_2 line_heights start) as [h Hh]; [lia|].
    rewrite (lines_height_S _ _ _ _ Hh).
    specialize (IH (S start)). specialize (Hpos _ _ Hh). lia.
Qed.

Lemma heights_lookup font lines j h :
  heights font lines !! j = Some h ->
  exists line, displayed_lines lines !! j = Some line /\ h = (get_text_size font line).2.
Proof.
  unfold heights, displayed_lines. rewrite measure_lines_heights, list_lookup_fmap.
  destruct (style_lines lines !! j) as [line|]; simpl; [|done].
  intros [= <-]. eauto.
Qed.

Lemma heights_nonneg font lines :
  (forall text, 0 <= (get_text_size font text).2) ->
  forall j h, heights font lines !! j = Some h -> 0 <= h.
Proof.
  intros Hpos j h Hh. apply heights_lookup in Hh as (line & _ & ->). apply Hpos.
Qed.

Lemma heights_length font lines : length (heights font lines) = length lines.
Proof.
  unfold heights. by rewrite measure_lines_heights_length, style_lines_length.
Qed.

(** ** More on the inner loop *)

Section FillPartMore.
Variable styled_lines : list string.
Variable line_heights : list Z.

Local Abbreviation fill := (spec_fill styled_lines line_heights LINE_SPACING MAX_IMAGE_HEIGHT).

(** The loop stops at the end of the lines or in front of a line that
    does not fit. *)
Lemma spec_fill_stopped idx h part idx' h' part' :
  fill idx h part idx' h' part' ->
  (length styled_lines <= idx')%nat \/
  exists ht, line_heights !! idx' = Some ht /\ h' + (ht + LINE_SPACING) > MAX_IMAGE_HEIGHT.
Proof.
  induction 1 as [idx h part Hge|idx h part ht Hlt Hht Hgt Hne
                 |idx h part ht line i1 h1 p1 Hlt Hht Hline Hno _ IH]; eauto.
Qed.

(** Lines that fit together are all taken. *)
Lemma spec_fill_all (n : nat) idx h part :
  n = (length styled_lines - idx)%nat ->
  length line_heights = length styled_lines ->
  (forall j ht, line_heights !! j = Some ht -> 0 <= ht) ->
  (idx <= length styled_lines)%nat ->
  h + lines_height line_heights idx n <= MAX_IMAGE_HEIGHT ->
  fill idx h part (length styled_lines)
    (h + lines_height line_heights idx n) (part ++ drop idx styled_lines).
Proof.
  intros Hn Hlen Hpos. revert idx h part Hn.
  induction n as [|n IH]; intros idx h part Hn Hidx Hfit.
  - assert (idx = length styled_lines) as -> by lia.
    rewrite lines_height_0, Z.add_0_r, drop_all, app_nil_r.
    by apply spec_fill_exhausted.
  - destruct (lookup_lt_is_Some_2 line_heights idx) as [ht Hht]; [lia|].
    destruct (lookup_lt_is_Some_2 styled_lines idx) as [line Hline]; [lia|].
    rewrite (lines_height_S _ _ _ _ Hht) in Hfit |- *.
    pose proof (lines_height_ge line_heights (S idx) n Hpos ltac:(lia)) as Hrest.
    unfold LINE_SPACING in Hrest.
    eapply spec_fill_add; eauto; [lia| |].
    + intros [Hgt _]. unfold LINE_SPACING in *. lia.
    + rewrite (drop_S _ _ _ Hline).
      replace (part ++ line :: drop (S idx) styled_lines)
        with ((part ++ [line]) ++ drop (S idx) styled_lines)
        by (by rewrite <- app_assoc).
      replace (h + (ht + LINE_SPACING + lines_height line_heights (S idx) n))
        with ((h + (ht + LINE_SPACING)) + lines_height line_heights (S idx) n) by lia.
      apply IH; [lia|lia|lia].
Qed.

(** A line too high for any part is taken only as the forced first line
    of a part, and nothing is taken after it. *)
Lemma spec_fill_oversized idx h part idx' h' part' :
  fill idx h part idx' h' part' ->
  PADDING <= h ->
  (forall j ht, line_heights !! j = Some ht -> 0 <= ht) ->
  forall j ht, (idx <= j < idx')%nat ->
    line_heights !! j = Some ht ->
    PADDING + (ht + LINE_SPACING) > MAX_IMAGE_HEIGHT ->
    part = [] /\ j = idx /\ idx' = S idx.
Proof.
  intros Hfill Hh Hpos.
  induction Hfill as [idx h part Hge|idx h part ht0 Hlt Hht Hgt Hne
                     |idx h part ht0 line i1 h1 p1 Hlt Hht Hline Hno Hrec IH];
    intros j ht Hj Hjh Hbig; try lia.
  pose proof (Hpos _ _ Hht) as Hht0. unfold LINE_SPACING in *.
  destruct (decide (j = idx)) as [->|Hne].
  - simplify_eq.
    assert (part = []) as ->.
    { destruct part; [done|]. exfalso. apply Hno. split; [lia|done]. }
    split; [done|]. split; [done|].
    inversion Hrec; subst; try done.
    exfalso.
    match goal with H : line_heights !! S idx = Some _ |- _ => apply Hpos in H end.
    match goal with H : ~ (_ /\ _ ++ _ <> _) |- _ => apply H end.
    split; [lia|done].
  - destruct (IH ltac:(lia) j ht ltac:(lia) Hjh Hbig) as (Hnil & _).
    by destruct part.
Qed.
End FillPartMore.

(** ** More on drawing *)

(** Where the loop draws: every line at the height reached by the lines
    drawn before it. *)
Lemma draw_lines_placed font line_heights start (l : list string) k y drawn :
  (start + k + length l <= length line_heights)%nat ->
  draw_lines font line_heights start (imap (fun i a => ((k + i)%nat, a)) l) y drawn =
  Ok (drawn ++
      concat (imap (fun i line =>
                      draw_line font (y + lines_height line_heights (start + k) i) line)
                   l)).
Proof.
  revert k y drawn. induction l as [|x l IH]; intros k y drawn Hlen; simpl in *.
  - by rewrite app_nil_r.
  - rewrite Nat.add_0_r.
    destruct (lookup_lt_is_Some_2 line_heights (start + k)%nat) as [ht Hht]; [lia|].
    unfold index. rewrite Hht. simpl.
    rewrite (imap_ext _ (fun i a => ((S k + i)%nat, a)) l)
      by (intros; simpl; f_equal; lia).
    rewrite IH by lia.
    rewrite lines_height_0, Z.add_0_r, <- app_assoc. do 4 f_equal.
    apply imap_ext. intros i line _. simpl.
    rewrite (lines_height_S _ _ _ _ Hht).
    replace (start + S k)%nat with (S (start + k)) by lia.
    f_equal. lia.
Qed.

(** ** More on the outer loop *)

Section PaginateMore.
Variable font : Font.
Variable styled_lines : list string.
Variable line_heights : list Z.
Variable img_width : Z.

Local Abbreviation outer := (paginated font styled_lines line_heights img_width).
Local Abbreviation fill := (spec_fill styled_lines line_heights LINE_SPACING MAX_IMAGE_HEIGHT).

(** Each part, by itself: the run of the inner loop that filled it, the
    lines it covers, and its drawing. *)
Lemma paginated_parts pn idx w parts w' :
  outer pn idx w parts w' ->
  length line_heights = length styled_lines ->
  Forall (fun p =>
    exists idx',
      fill (part_start_index p) PADDING [] idx' (part_height p - PADDING)
        (lines_for_this_part p) /\
      (part_start_index p < idx' <= length styled_lines)%nat /\
      idx' = (part_start_index p + length (lines_for_this_part p))%nat /\
      lines_for_this_part p =
        take (length (lines_for_this_part p)) (drop (part_start_index p) styled_lines) /\
      im_draws (img p) =
        placed_draws font line_heights (part_start_index p) (lines_for_this_part p) /\
      im_bg (img p) = BG_COLOR) parts.
Proof.
  intros H Hlen.
  induction H as [pn idx w Hge|pn idx w f idx' h lines drawn parts w' Hlt Hfill Hdraw _ IH];
    constructor; [|done].
  simpl. apply fill_part_spec_fill in Hfill. exists idx'.
  pose proof (spec_fill_progress _ _ _ _ _ _ _ Hfill Hlt) as Hprog.
  destruct (spec_fill_lines _ _ _ _ _ _ _ _ Hfill) as (_ & Hmax & Hlines).
  simpl in Hlines.
  assert (Hl : length lines = (idx' - idx)%nat).
  { rewrite Hlines, length_take, length_drop. lia. }
  replace (h + PADDING - PADDING) with h by lia.
  split; [done|]. split; [lia|]. split; [lia|]. split; [by rewrite Hl|]. split; [|done].
  pose proof (draw_lines_placed font line_heights idx lines 0 PADDING []) as Hplaced.
  simpl in Hplaced. unfold enumerate in Hdraw. rewrite Hplaced in Hdraw by lia.
  injection Hdraw as <-. unfold placed_draws. by rewrite Nat.add_0_r.
Qed.

(** The world a run leaves: the images written, one line printed for
    each, the error stream as it was. *)
Lemma paginated_world pn idx w parts w' :
  outer pn idx w parts w' ->
  w' = {| fs := write_parts (fs w) parts;
          stdout := stdout w ++ map saved_message parts;
          stderr := stderr w |}.
Proof.
  induction 1 as [pn idx w Hge|pn idx w f idx' h lines drawn parts w' Hlt Hfill Hdraw _ IH].
  - simpl. rewrite app_nil_r. by destruct w.
  - rewrite IH. simpl. by rewrite <- app_assoc.
Qed.

(** The parts do not depend on the world the loop starts in. *)
Lemma paginate_parts_any_world fuel pn idx w v :
  (paginate fuel font styled_lines line_heights img_width pn idx w).1 =
  (paginate fuel font styled_lines line_heights img_width pn idx v).1.
Proof.
  revert pn idx w v. induction fuel as [|fuel IH]; intros pn idx w v; [done|].
  rewrite !paginate_unfold.
  destruct (idx <? length styled_lines)%nat; [|done].
  destruct (fill_part fuel _ _ _ _ _) as [[[idx' h] lines]| |]; try done.
  destruct (draw_lines _ _ _ _ _ _) as [drawn| |]; try done.
  cbv zeta.
  specialize (IH (pn + 1) idx'
                (after_part (part_of img_width pn idx lines h drawn) w)
                (after_part (part_of img_width pn idx lines h drawn) v)).
  destruct (paginate fuel _ _ _ _ _ _ (after_part _ w)) as [r1 w1].
  destruct (paginate fuel _ _ _ _ _ _ (after_part _ v)) as [r2 w2].
  simpl in *. by rewrite IH.
Qed.
End PaginateMore.

(** ** Writing the images *)

Lemma write_parts_lookup_ne (m : gmap string node) (parts : list Part) (path : string) :
  (forall p, p ∈ parts -> path <> output_filename p) ->
  write_parts m parts !! path = m !! path.
Proof.
  unfold write_parts. revert m. induction parts as [|p parts IH]; intros m Hne; [done|].
  simpl. rewrite IH by (intros q Hq; apply Hne; by right).
  apply lookup_insert_ne. intros Heq. by apply (Hne p); [left|].
Qed.

Lemma write_parts_again (m : gmap string node) (parts : list Part) :
  (forall p, p ∈ parts -> m !! output_filename p = Some (PngFile (img p))) ->
  write_parts m parts = m.
Proof.
  unfold write_parts. revert m. induction parts as [|p parts IH]; intros m Hm; [done|].
  simpl. rewrite insert_id by (apply Hm; by left).
  apply IH. intros q Hq. apply Hm. by right.
Qed.

Lemma output_not_filename (k : Z) : "output"%string <> filename_of k.
Proof. unfold filename_of, OUTPUT_FILE_PREFIX. intros H. simplify_eq. Qed.

Lemma input_not_output : INPUT_FILE <> "output"%string.
Proof. done. Qed.

(** ** Font selection *)

(** Font selection and the run that follows.  The script takes
    DejaVuSansMono when [truetype] gives it; when [truetype] raises an
    [IOError] it prints one line on the error stream and takes Pillow's
    default font, asked with a size or, after an [AttributeError], without.
    With a font and the transcript it exits with status 0, having produced
    the parts and files [main] produces with that font.  Any other
    exception, such as the [TypeError] of a [load_default] that takes no
    size, ends the script before [main]: nothing is written or printed on
    the output stream. *)
Theorem script_font_fallback fuel pil w lines :
  fs w !! INPUT_FILE = Some (TextFile lines) ->
  (length lines + 1 < fuel)%nat ->
  match selected_font pil with
  | inl font =>
      exists parts w',
        script fuel pil w = (Ok parts, w') /\
        exit_status (script fuel pil w).1 = Some 0 /\
        (main fuel font w).1 = Ok parts /\
        fs w' = fs (main fuel font w).2 /\
        stdout w' = stdout (main fuel font w).2 /\
        stderr w' = stderr w ++ (if font_missing pil then [font_message] else [])
  | inr e =>
      exists w',
        script fuel pil w = (Raise e, w') /\
        fs w' = fs w /\
        stdout w' = stdout w /\
        stderr w' = stderr w ++ (if font_missing pil then [font_message] else [])
  end.
Proof.
  intros Hfile Hfuel. rewrite script_selected.
  destruct (after_font_selection_world pil w) as (Hfs0 & Hout0 & Herr0).
  destruct (selected_font pil) as [font|e]; [|eauto].
  set (v := after_font_selection pil w) in *.
  destruct (main_paginated fuel font v lines) as (parts & v' & Hv & Hpv);
    [by rewrite Hfs0|done|].
  destruct (main_paginated fuel font w lines Hfile Hfuel) as (parts2 & w' & Hw & Hpw).
  exists parts, v'. rewrite Hv, Hw. simpl.
  assert (parts2 = parts) as ->.
  { pose proof (main_paginate fuel font w lines Hfile) as E1.
    pose proof (main_paginate fuel font v lines ltac:(by rewrite Hfs0)) as E2.
    rewrite Hw in E1. rewrite Hv in E2.
    pose proof (paginate_parts_any_world font (displayed_lines lines)
                  (heights font lines) (max_width font lines + PADDING * 2) fuel 1 0%nat
                  (ensure_output_dir w) (ensure_output_dir v)) as E.
    rewrite <- E1, <- E2 in E. simpl in E. by injection E. }
  apply paginated_world in Hpv, Hpw. subst v' w'. simpl.
  rewrite !ensure_output_dir_fs, Hfs0.
  destruct (ensure_output_dir_streams w) as [-> _].
  destruct (ensure_output_dir_streams v) as [-> ->].
  rewrite Hout0, Herr0. repeat split; done.
Qed.

Lemma script_font_fallback_witness :
  fs (world_of four_lines) !! INPUT_FILE = Some (TextFile four_lines) /\
  (length four_lines + 1 < 6)%nat /\
  match selected_font pillow_default_only with
  | inl font =>
      exists parts w',
        script 6 pillow_default_only (world_of four_lines) = (Ok parts, w') /\
        exit_status (script 6 pillow_default_only (world_of four_lines)).1 = Some 0 /\
        (main 6 font (world_of four_lines)).1 = Ok parts /\
        fs w' = fs (main 6 font (world_of four_lines)).2 /\
        stdout w' = stdout (main 6 font (world_of four_lines)).2 /\
        stderr w' =
          stderr (world_of four_lines) ++
          (if font_missing pillow_default_only then [font_message] else [])
  | inr e =>
      exists w',
        script 6 pillow_default_only (world_of four_lines) = (Raise e, w') /\
        fs w' = fs (world_of four_lines) /\
        stdout w' = stdout (world_of four_lines) /\
        stderr w' =
          stderr (world_of four_lines) ++
          (if font_missing pillow_default_only then [font_message] else [])
  end.
Proof.
  split; [reflexivity|]. split; [simpl; lia|].
  apply (script_font_fallback 6 pillow_default_only (world_of four_lines) four_lines);
    [reflexivity|simpl; lia].
Defined.

(** A [load_default] that takes no size: the [TypeError] is not the
    [AttributeError] the script catches, and ends it. *)
Example script_old_pillow :
  selected_font pillow_old = inr TypeError /\
  script 6 pillow_old (world_of four_lines) =
    (Raise TypeError, eprint font_message (world_of four_lines)).
Proof. split; reflexivity. Qed.

Lemma main_part_heights_witness :
  fs (world_of four_lines) !! INPUT_FILE = Some (TextFile four_lines) /\
  (length four_lines + 1 < 6)%nat /\
  exists parts w',
    main 6 font20 (world_of four_lines) = (Ok parts, w') /\
    Forall (fun p =>
      part_height p =
        PADDING + lines_height (heights font20 four_lines) (part_start_index p)
                    (length (lines_for_this_part p)) + PADDING /\
      im_height (img p) = part_height p /\
      (part_height p <= MAX_IMAGE_HEIGHT + PADDING \/
       length (lines_for_this_part p) = 1%nat)) parts.
Proof.
  split; [reflexivity|]. split; [simpl; lia|].
  apply (main_part_heights 6 font20 (world_of four_lines) four_lines);
    [reflexivity|simpl; lia].
Defined.

(** ** Shape of the parts *)

Lemma main_parts fuel font w lines :
  fs w !! INPUT_FILE = Some (TextFile lines) ->
  (length lines + 1 < fuel)%nat ->
  exists parts w',
    main fuel font w = (Ok parts, w') /\
    paginated font (displayed_lines lines) (heights font lines)
      (max_width font lines + PADDING * 2) 1 0%nat (ensure_output_dir w) parts w' /\
    length (heights font lines) = length (displayed_lines lines) /\
    length (displayed_lines lines) = length lines.
Proof.
  intros Hfile Hfuel.
  destruct (main_paginated fuel font w lines Hfile Hfuel) as (parts & w' & Hrun & Hp).
  exists parts, w'. repeat split; try done.
  - unfold displayed_lines. by rewrite heights_length, style_lines_length.
  - apply style_lines_length.
Qed.

(** Pagination is greedy: a part is a run of consecutive displayed lines,
    and when a line follows it, that line did not fit: the height
    accumulated for the part, without the bottom padding, plus the line's
    height and spacing is above [MAX_IMAGE_HEIGHT]. *)
Theorem parts_are_greedy fuel font w lines :
  fs w !! INPUT_FILE = Some (TextFile lines) ->
  (length lines + 1 < fuel)%nat ->
  exists parts w',
    main fuel font w = (Ok parts, w') /\
    forall i p, parts !! i = Some p ->
      lines_for_this_part p =
        take (length (lines_for_this_part p))
             (drop (part_start_index p) (displayed_lines lines)) /\
      ((part_start_index p + length (lines_for_this_part p) < length lines)%nat ->
       exists ht,
         heights font lines !! (part_start_index p + length (lines_for_this_part p))%nat
           = Some ht /\
         (part_height p - PADDING) + (ht + LINE_SPACING) > MAX_IMAGE_HEIGHT).
Proof.
  intros Hfile Hfuel.
  destruct (main_parts fuel font w lines Hfile Hfuel)
    as (parts & w' & Hrun & Hp & Hlen & Hlen').
  exists parts, w'. split; [done|]. intros i p Hi.
  pose proof (paginated_parts _ _ _ _ _ _ _ _ _ Hp Hlen) as Hall.
  rewrite Forall_lookup in Hall.
  destruct (Hall i p Hi) as (idx' & Hfill & Hidx & -> & Hlines & _).
  split; [done|]. intros Hnext.
  destruct (spec_fill_stopped _ _ _ _ _ _ _ _ Hfill) as [Hend|Hstop]; [lia|done].
Qed.

Lemma parts_are_greedy_witness :
  fs (world_of hundred_lines) !! INPUT_FILE = Some (TextFile hundred_lines) /\
  (length hundred_lines + 1 < 102)%nat /\
  exists parts w',
    main 102 font20 (world_of hundred_lines) = (Ok parts, w') /\
    forall i p, parts !! i = Some p ->
      lines_for_this_part p =
        take (length (lines_for_this_part p))
             (drop (part_start_index p) (displayed_lines hundred_lines)) /\
      ((part_start_index p + length (lines_for_this_part p) < length hundred_lines)%nat ->
       exists ht,
         heights font20 hundred_lines
           !! (part_start_index p + length (lines_for_this_part p))%nat = Some ht /\
         (part_height p - PADDING) + (ht + LINE_SPACING) > MAX_IMAGE_HEIGHT).
Proof.
  split; [reflexivity|]. split; [simpl; lia|].
  apply (parts_are_greedy 102 font20 (world_of hundred_lines) hundred_lines);
    [reflexivity|simpl; lia].
Defined.

(** When all lines fit in one image, heights not being negative, there is
    exactly one part and it holds every displayed line. *)
Theorem single_part_when_all_fits fuel font w lines :
  fs w !! INPUT_FILE = Some (TextFile lines) ->
  (length lines + 1 < fuel)%nat ->
  lines <> [] ->
  (forall text, 0 <= (get_text_size font text).2) ->
  PADDING + lines_height (heights font lines) 0 (length lines) <= MAX_IMAGE_HEIGHT ->
  exists p w',
    main fuel font w = (Ok [p], w') /\
    part_number p = 1 /\
    part_start_index p = 0%nat /\
    lines_for_this_part p = displayed_lines lines /\
    part_height p =
      PADDING + lines_height (heights font lines) 0 (length lines) + PADDING.
Proof.
  intros Hfile Hfuel Hne Hpos Hfit.
  destruct (main_parts fuel font w lines Hfile Hfuel)
    as (parts & w' & Hrun & Hp & Hlen & Hlen').
  pose proof (spec_fill_all (displayed_lines lines) (heights font lines)
                (length (displayed_lines lines)) 0 PADDING []
                ltac:(lia) Hlen (heights_nonneg font lines Hpos) ltac:(lia)) as Hall.
  rewrite Hlen' in Hall at 1 2. specialize (Hall Hfit). simpl in Hall.
  inversion Hp as [? ? ? Hge|? ? ? f idx' h lines0 drawn rest ? Hlt Hfill Hdraw Hrest];
    subst.
  { destruct lines; [done|]. rewrite Hlen' in Hge. simpl in Hge. lia. }
  apply fill_part_spec_fill in Hfill.
  destruct (spec_fill_det _ _ _ _ _ _ _ _ _ _ _ Hfill Hall) as (-> & -> & ->).
  inversion Hrest; subst; [|lia].
  eexists _, _. split; [exact Hrun|]. simpl. rewrite Hlen'. done.
Qed.

Lemma single_part_when_all_fits_witness :
  fs (world_of four_lines) !! INPUT_FILE = Some (TextFile four_lines) /\
  (length four_lines + 1 < 6)%nat /\
  four_lines <> [] /\
  (forall text, 0 <= (get_text_size font20 text).2) /\
  PADDING + lines_height (heights font20 four_lines) 0 (length four_lines)
    <= MAX_IMAGE_HEIGHT /\
  exists p w',
    main 6 font20 (world_of four_lines) = (Ok [p], w') /\
    part_number p = 1 /\
    part_start_index p = 0%nat /\
    lines_for_this_part p = displayed_lines four_lines /\
    part_height p =
      PADDING + lines_height (heights font20 four_lines) 0 (length four_lines) + PADDING.
Proof.
  assert (H1 : four_lines <> []) by done.
  assert (H2 : forall text, 0 <= (get_text_size font20 text).2).
  { intros text. simpl. lia. }
  assert (H3 : PADDING + lines_height (heights font20 four_lines) 0 (length four_lines)
               <= MAX_IMAGE_HEIGHT).
  { vm_compute. discriminate. }
  split; [reflexivity|]. split; [simpl; lia|]. split; [exact H1|].
  split; [exact H2|]. split; [exact H3|].
  apply (single_part_when_all_fits 6 font20 (world_of four_lines) four_lines);
    [reflexivity|simpl; lia|exact H1|exact H2|exact H3].
Defined.

(** A line too high to fit even alone (heights not being negative) is
    the only line of its part. *)
Theorem oversized_line_alone fuel font w lines :
  fs w !! INPUT_FILE = Some (TextFile lines) ->
  (length lines + 1 < fuel)%nat ->
  (forall text, 0 <= (get_text_size font text).2) ->
  exists parts w',
    main fuel font w = (Ok parts, w') /\
    forall i p j ht, parts !! i = Some p ->
      (part_start_index p <= j < part_start_index p + length (lines_for_this_part p))%nat ->
      heights font lines !! j = Some ht ->
      PADDING + (ht + LINE_SPACING) > MAX_IMAGE_HEIGHT ->
      length (lines_for_this_part p) = 1%nat /\ j = part_start_index p /\
      part_height p > MAX_IMAGE_HEIGHT + PADDING.
Proof.
  intros Hfile Hfuel Hpos.
  destruct (main_parts fuel font w lines Hfile Hfuel)
    as (parts & w' & Hrun & Hp & Hlen & Hlen').
  exists parts, w'. split; [done|]. intros i p j ht Hi Hj Hht Hbig.
  pose proof (paginated_parts _ _ _ _ _ _ _ _ _ Hp Hlen) as Hall.
  rewrite Forall_lookup in Hall.
  destruct (Hall i p Hi) as (idx' & Hfill & Hidx & -> & _).
  destruct (spec_fill_oversized _ _ _ _ _ _ _ _ Hfill ltac:(lia)
              (heights_nonneg font lines Hpos) j ht Hj Hht Hbig) as (_ & -> & Hone).
  split; [lia|]. split; [done|].
  apply spec_fill_height in Hfill.
  replace (part_start_index p + length (lines_for_this_part p) - part_start_index p)%nat
    with 1%nat in Hfill by lia.
  rewrite (lines_height_S _ _ _ _ Hht), lines_height_0 in Hfill. lia.
Qed.

Lemma oversized_line_alone_witness :
  fs (world_of one_line) !! INPUT_FILE = Some (TextFile one_line) /\
  (length one_line + 1 < 3)%nat /\
  (forall text, 0 <= (get_text_size tall_font text).2) /\
  exists parts w',
    main 3 tall_font (world_of one_line) = (Ok parts, w') /\
    forall i p j ht, parts !! i = Some p ->
      (part_start_index p <= j < part_start_index p + length (lines_for_this_part p))%nat ->
      heights tall_font one_line !! j = Some ht ->
      PADDING + (ht + LINE_SPACING) > MAX_IMAGE_HEIGHT ->
      length (lines_for_this_part p) = 1%nat /\ j = part_start_index p /\
      part_height p > MAX_IMAGE_HEIGHT + PADDING.
Proof.
  assert (H : forall text, 0 <= (get_text_size tall_font text).2).
  { intros text. simpl. lia. }
  split; [reflexivity|]. split; [simpl; lia|]. split; [exact H|].
  apply (oversized_line_alone 3 tall_font (world_of one_line) one_line);
    [reflexivity|simpl; lia|exact H].
Defined.

(** ** Where the lines are drawn *)

Lemma lines_height_snoc (line_heights : list Z) (start k : nat) (h : Z) :
  line_heights !! (start + k)%nat = Some h ->
  lines_height line_heights start (S k) =
  lines_height line_heights start k + (h + LINE_SPACING).
Proof.
  revert start. induction k as [|k IH]; intros start Hh.
  - rewrite Nat.add_0_r in Hh.
    rewrite (lines_height_S _ _ _ _ Hh), !lines_height_0. lia.
  - destruct (lookup_lt_is_Some_2 line_heights start) as [h0 Hh0].
    { apply lookup_lt_Some in Hh. lia. }
    rewrite (lines_height_S _ _ (S k) _ Hh0), (lines_height_S _ _ k _ Hh0).
    rewrite (IH (S start)) by (by replace (S start + k)%nat with (start + S k)%nat by lia).
    lia.
Qed.

Lemma lines_height_mono (line_heights : list Z) (start k n : nat) :
  (forall j h, line_heights !! j = Some h -> 0 <= h) ->
  (start + n <= length line_heights)%nat ->
  (k <= n)%nat ->
  0 <= lines_height line_heights start k <= lines_height line_heights start n.
Proof.
  intros Hpos Hlen Hk. split.
  { pose proof (lines_height_ge line_heights start k Hpos ltac:(lia)).
    unfold LINE_SPACING in *. lia. }
  induction n as [|n IH]; [by replace k with 0%nat by lia|].
  destruct (decide (k = S n)) as [->|Hne]; [lia|].
  destruct (lookup_lt_is_Some_2 line_heights (start + n)%nat) as [h Hh]; [lia|].
  rewrite (lines_height_snoc _ _ _ _ Hh).
  specialize (Hpos _ _ Hh). unfold LINE_SPACING.
  specialize (IH ltac:(lia) ltac:(lia)). lia.
Qed.



(** Heights not being negative, every line of a part is drawn between
    the paddings of its image: it starts at or below the top padding, and
    its height and spacing end at or above the bottom padding. *)
Theorem lines_drawn_inside_image fuel font w lines :
  fs w !! INPUT_FILE = Some (TextFile lines) ->
  (length lines + 1 < fuel)%nat ->
  (forall text, 0 <= (get_text_size font text).2) ->
  exists parts w',
    main fuel font w = (Ok parts, w') /\
    forall p k line, p ∈ parts -> lines_for_this_part p !! k = Some line ->
      let y := PADDING + lines_height (heights font lines) (part_start_index p) k in
      PADDING <= y /\
      y + ((get_text_size font line).2 + LINE_SPACING) <= im_height (img p) - PADDING.
Proof.
  intros Hfile Hfuel Hpos.
  destruct (main_parts fuel font w lines Hfile Hfuel)
    as (parts & w' & Hrun & Hp & Hlen & Hlen').
  exists parts, w'. split; [done|]. intros p k line Hin Hk y. subst y.
  pose proof (paginated_parts _ _ _ _ _ _ _ _ _ Hp Hlen) as Hall.
  rewrite Forall_forall in Hall.
  destruct (Hall p Hin) as (idx' & Hfill & Hidx & -> & Hlines & _).
  pose proof (paginated_heights _ _ _ _ _ _ _ _ _ Hp) as Hh.
  rewrite Forall_forall in Hh. destruct (Hh p Hin) as (Hheight & -> & _).
  pose proof (lookup_lt_Some _ _ _ Hk) as Hklt.
  assert (Hline : displayed_lines lines !! (part_start_index p + k)%nat = Some line).
  { rewrite Hlines in Hk. rewrite lookup_take_lt in Hk by done.
    by rewrite lookup_drop in Hk. }
  assert (Hht : heights font lines !! (part_start_index p + k)%nat
                = Some (get_text_size font line).2).
  { unfold heights. rewrite measure_lines_heights, list_lookup_fmap.
    unfold displayed_lines in Hline. by rewrite Hline. }
  pose proof (heights_nonneg font lines Hpos) as Hnn.
  pose proof (lines_height_mono (heights font lines) (part_start_index p) k
                (length (lines_for_this_part p)) Hnn ltac:(lia) ltac:(lia)) as [H0 _].
  pose proof (lines_height_mono (heights font lines) (part_start_index p) (S k)
                (length (lines_for_this_part p)) Hnn ltac:(lia) ltac:(lia)) as [_ H1].
  rewrite (lines_height_snoc _ _ _ _ Hht) in H1.
  split; lia.
Qed.

Lemma lines_drawn_inside_image_witness :
  fs (world_of four_lines) !! INPUT_FILE = Some (TextFile four_lines) /\
  (length four_lines + 1 < 6)%nat /\
  (forall text, 0 <= (get_text_size font20 text).2) /\
  exists parts w',
    main 6 font20 (world_of four_lines) = (Ok parts, w') /\
    forall p k line, p ∈ parts -> lines_for_this_part p !! k = Some line ->
      let y := PADDING + lines_height (heights font20 four_lines) (part_start_index p) k in
      PADDING <= y /\
      y + ((get_text_size font20 line).2 + LINE_SPACING) <= im_height (img p) - PADDING.
Proof.
  assert (H : forall text, 0 <= (get_text_size font20 text).2).
  { intros text. simpl. lia. }
  split; [reflexivity|]. split; [simpl; lia|]. split; [exact H|].
  apply (lines_drawn_inside_image 6 font20 (world_of four_lines) four_lines);
    [reflexivity|simpl; lia|exact H].
Defined.

(** ** Files and output streams *)

(** The parts are numbered 1, 2, ... in the order they are produced; part
    number [n] is saved as [output/screenshot_n.png], so no two parts share
    a file; one line per part is printed on the output stream, in order,
    and nothing on the error stream. *)
Theorem parts_numbered_and_announced fuel font w lines :
  fs w !! INPUT_FILE = Some (TextFile lines) ->
  (length lines + 1 < fuel)%nat ->
  exists parts w',
    main fuel font w = (Ok parts, w') /\
    (forall i p, parts !! i = Some p ->
       part_number p = Z.of_nat i + 1 /\
       output_filename p =
         "output/screenshot_" +:+ str_of_int (Z.of_nat i + 1) +:+ ".png") /\
    NoDup (map output_filename parts) /\
    stdout w' =
      stdout w ++
      map (fun p => "Screenshot part saved to '" +:+ output_filename p +:+ "'") parts /\
    stderr w' = stderr w.
Proof.
  intros Hfile Hfuel.
  destruct (main_parts fuel font w lines Hfile Hfuel)
    as (parts & w' & Hrun & Hp & _).
  exists parts, w'. split; [done|].
  pose proof (paginated_numbers _ _ _ _ _ _ _ _ _ Hp) as Hnum.
  split; [|split; [|split]].
  - intros i p Hi. destruct (Hnum i p Hi) as [Hn Hf]. split; [lia|].
    rewrite Hf, Hn. replace (1 + Z.of_nat i) with (Z.of_nat i + 1) by lia. done.
  - apply NoDup_alt. intros i j name Hi Hj.
    rewrite list_lookup_fmap in Hi, Hj.
    destruct (parts !! i) as [p|] eqn:Ep; [|done].
    destruct (parts !! j) as [q|] eqn:Eq; [|done].
    simpl in Hi, Hj. injection Hi as <-. injection Hj as Hj.
    destruct (Hnum i p Ep) as [Hnp Hfp]. destruct (Hnum j q Eq) as [Hnq Hfq].
    rewrite Hfp, Hfq in Hj. apply filename_of_inj in Hj. lia.
  - apply paginated_world in Hp. subst w'. simpl.
    by destruct (ensure_output_dir_streams w) as [-> _].
  - apply paginated_world in Hp. subst w'. simpl.
    by destruct (ensure_output_dir_streams w) as [_ ->].
Qed.

Lemma parts_numbered_and_announced_witness :
  fs (world_of hundred_lines) !! INPUT_FILE = Some (TextFile hundred_lines) /\
  (length hundred_lines + 1 < 102)%nat /\
  exists parts w',
    main 102 font20 (world_of hundred_lines) = (Ok parts, w') /\
    (forall i p, parts !! i = Some p ->
       part_number p = Z.of_nat i + 1 /\
       output_filename p =
         "output/screenshot_" +:+ str_of_int (Z.of_nat i + 1) +:+ ".png") /\
    NoDup (map output_filename parts) /\
    stdout w' =
      stdout (world_of hundred_lines) ++
      map (fun p => "Screenshot part saved to '" +:+ output_filename p +:+ "'") parts /\
    stderr w' = stderr (world_of hundred_lines).
Proof.
  split; [reflexivity|]. split; [simpl; lia|].
  apply (parts_numbered_and_announced 102 font20 (world_of hundred_lines) hundred_lines);
    [reflexivity|simpl; lia].
Defined.

Lemma paginated_filenames font styled_lines line_heights img_width pn idx w parts w' :
  paginated font styled_lines line_heights img_width pn idx w parts w' ->
  forall p, p ∈ parts -> exists k, output_filename p = filename_of k.
Proof.
  intros Hp p Hin. apply list_elem_of_lookup in Hin as [i Hi].
  destruct (paginated_numbers _ _ _ _ _ _ _ _ _ Hp i p Hi) as [_ Hf]. eauto.
Qed.

(** A run writes the images of its parts and, if it was missing, the
    output directory; every other path is left as it was.  In particular
    the transcript is still there, unchanged. *)
Theorem main_leaves_other_files fuel font w lines :
  fs w !! INPUT_FILE = Some (TextFile lines) ->
  (length lines + 1 < fuel)%nat ->
  exists parts w',
    main fuel font w = (Ok parts, w') /\
    fs w' !! INPUT_FILE = Some (TextFile lines) /\
    fs w' !! "output"%string = Some (default Dir (fs w !! "output"%string)) /\
    forall path, path <> "output"%string ->
      (forall p, p ∈ parts -> path <> output_filename p) ->
      fs w' !! path = fs w !! path.
Proof.
  intros Hfile Hfuel.
  destruct (main_parts fuel font w lines Hfile Hfuel)
    as (parts & w' & Hrun & Hp & _).
  exists parts, w'. split; [done|].
  pose proof (paginated_filenames _ _ _ _ _ _ _ _ _ Hp) as Hnames.
  apply paginated_world in Hp. subst w'. simpl. split; [|split].
  - rewrite write_parts_lookup_ne.
    + by rewrite ensure_output_dir_lookup.
    + intros p Hin Heq. destruct (Hnames p Hin) as [k Hk]. rewrite Hk in Heq.
      by apply (filename_of_not_input k).
  - rewrite write_parts_lookup_ne.
    + rewrite ensure_output_dir_fs.
      destruct (fs w !! "output"%string) as [n|] eqn:E; simpl; [done|].
      by rewrite lookup_insert_eq.
    + intros p Hin Heq. destruct (Hnames p Hin) as [k Hk]. rewrite Hk in Heq.
      by apply (output_not_filename k).
  - intros path Hne Hpath. rewrite write_parts_lookup_ne by done.
    by apply ensure_output_dir_lookup.
Qed.

Lemma main_leaves_other_files_witness :
  fs (world_of four_lines) !! INPUT_FILE = Some (TextFile four_lines) /\
  (length four_lines + 1 < 6)%nat /\
  exists parts w',
    main 6 font20 (world_of four_lines) = (Ok parts, w') /\
    fs w' !! INPUT_FILE = Some (TextFile four_lines) /\
    fs w' !! "output"%string =
      Some (default Dir (fs (world_of four_lines) !! "output"%string)) /\
    forall path, path <> "output"%string ->
      (forall p, p ∈ parts -> path <> output_filename p) ->
      fs w' !! path = fs (world_of four_lines) !! path.
Proof.
  split; [reflexivity|]. split; [simpl; lia|].
  apply (main_leaves_other_files 6 font20 (world_of four_lines) four_lines);
    [reflexivity|simpl; lia].
Defined.

(** Running [main] again on the world a run left gives the same parts
    and leaves the file system as the first run left it: the same images
    under the same names. *)
Theorem main_twice_same_images fuel font w lines :
  fs w !! INPUT_FILE = Some (TextFile lines) ->
  (length lines + 1 < fuel)%nat ->
  exists parts w1 w2,
    main fuel font w = (Ok parts, w1) /\
    main fuel font w1 = (Ok parts, w2) /\
    fs w2 = fs w1 /\
    stdout w2 = stdout w1 ++ map saved_message parts.
Proof.
  intros Hfile Hfuel.
  destruct (main_parts fuel font w lines Hfile Hfuel)
    as (parts & w1 & Hrun1 & Hp1 & _).
  assert (Hfile1 : fs w1 !! INPUT_FILE = Some (TextFile lines)).
  { pose proof (paginated_filenames _ _ _ _ _ _ _ _ _ Hp1) as Hnames.
    pose proof (paginated_world _ _ _ _ _ _ _ _ _ Hp1) as ->. simpl.
    rewrite write_parts_lookup_ne.
    - by rewrite ensure_output_dir_lookup.
    - intros p Hin Heq. destruct (Hnames p Hin) as [k Hk]. rewrite Hk in Heq.
      by apply (filename_of_not_input k). }
  assert (Hdir1 : is_Some (fs w1 !! "output"%string)).
  { pose proof (paginated_filenames _ _ _ _ _ _ _ _ _ Hp1) as Hnames.
    pose proof (paginated_world _ _ _ _ _ _ _ _ _ Hp1) as ->. simpl.
    rewrite write_parts_lookup_ne.
    - apply ensure_output_dir_exists.
    - intros p Hin Heq. destruct (Hnames p Hin) as [k Hk]. rewrite Hk in Heq.
      by apply (output_not_filename k). }
  destruct (main_parts fuel font w1 lines Hfile1 Hfuel)
    as (parts2 & w2 & Hrun2 & Hp2 & _).
  assert (parts2 = parts) as ->.
  { pose proof (main_paginate fuel font w lines Hfile) as E1.
    pose proof (main_paginate fuel font w1 lines Hfile1) as E2.
    rewrite Hrun1 in E1. rewrite Hrun2 in E2.
    pose proof (paginate_parts_any_world font (displayed_lines lines)
                  (heights font lines) (max_width font lines + PADDING * 2) fuel 1 0%nat
                  (ensure_output_dir w) (ensure_output_dir w1)) as E.
    rewrite <- E1, <- E2 in E. simpl in E. by injection E. }
  exists parts, w1, w2. split; [done|]. split; [done|].
  pose proof (paginated_saved _ _ _ _ _ _ _ _ _ Hp1) as [Hsaved _].
  pose proof (paginated_world _ _ _ _ _ _ _ _ _ Hp2) as ->. simpl.
  assert (Hens : fs (ensure_output_dir w1) = fs w1).
  { rewrite ensure_output_dir_fs. by destruct Hdir1 as [n ->]. }
  rewrite Hens. split.
  - by apply write_parts_again.
  - by destruct (ensure_output_dir_streams w1) as [-> _].
Qed.

Lemma main_twice_same_images_witness :
  fs (world_of four_lines) !! INPUT_FILE = Some (TextFile four_lines) /\
  (length four_lines + 1 < 6)%nat /\
  exists parts w1 w2,
    main 6 font20 (world_of four_lines) = (Ok parts, w1) /\
    main 6 font20 w1 = (Ok parts, w2) /\
    fs w2 = fs w1 /\
    stdout w2 = stdout w1 ++ map saved_message parts.
Proof.
  split; [reflexivity|]. split; [simpl; lia|].
  apply (main_twice_same_images 6 font20 (world_of four_lines) four_lines);
    [reflexivity|simpl; lia].
Defined.

(** No part is produced exactly when the transcript has no line; then
    nothing is saved or printed, and the run only made sure of the output
    directory. *)
Theorem no_part_iff_no_line fuel font w lines :
  fs w !! INPUT_FILE = Some (TextFile lines) ->
  (length lines + 1 < fuel)%nat ->
  exists parts w',
    main fuel font w = (Ok parts, w') /\
    (parts = [] <-> lines = []) /\
    (lines = [] -> w' = ensure_output_dir w).
Proof.
  intros Hfile Hfuel.
  destruct (main_parts fuel font w lines Hfile Hfuel)
    as (parts & w' & Hrun & Hp & _ & Hlen).
  exists parts, w'. split; [done|].
  inversion Hp as [? ? ? Hge|? ? ? f idx' h lines0 drawn rest ? Hlt]; subst.
  - rewrite Hlen in Hge. assert (lines = []) as -> by (destruct lines; [done|simpl in Hge; lia]).
    done.
  - rewrite Hlen in Hlt. split; [|intros ->; simpl in Hlt; lia].
    split; [done|]. intros ->. simpl in Hlt. lia.
Qed.

Lemma no_part_iff_no_line_witness :
  fs (world_of []) !! INPUT_FILE = Some (TextFile []) /\
  (length (@nil string) + 1 < 2)%nat /\
  exists parts w',
    main 2 font20 (world_of []) = (Ok parts, w') /\
    (parts = [] <-> @nil string = []) /\
    (@nil string = [] -> w' = ensure_output_dir (world_of [])).
Proof.
  split; [reflexivity|]. split; [simpl; lia|].
  apply (no_part_iff_no_line 2 font20 (world_of []) []); [reflexivity|simpl; lia].
Defined.

(** ** Size of the images *)

(** An image is never narrower than the two paddings, whatever the font
    measures; and, heights not being negative, never lower than the two
    paddings and the spacing of each of its lines, of which there is at
    least one. *)
Theorem image_size_lower_bounds fuel font w lines :
  fs w !! INPUT_FILE = Some (TextFile lines) ->
  (length lines + 1 < fuel)%nat ->
  (forall text, 0 <= (get_text_size font text).2) ->
  exists parts w',
    main fuel font w = (Ok parts, w') /\
    forall p, p ∈ parts ->
      2 * PADDING <= im_width (img p) /\
      (1 <= length (lines_for_this_part p))%nat /\
      2 * PADDING + LINE_SPACING * Z.of_nat (length (lines_for_this_part p))
        <= im_height (img p).
Proof.
  intros Hfile Hfuel Hpos.
  destruct (main_parts fuel font w lines Hfile Hfuel)
    as (parts & w' & Hrun & Hp & Hlen & Hlen').
  exists parts, w'. split; [done|]. intros p Hin.
  pose proof (paginated_width _ _ _ _ _ _ _ _ _ Hp) as Hw.
  pose proof (paginated_heights _ _ _ _ _ _ _ _ _ Hp) as Hh.
  pose proof (paginated_parts _ _ _ _ _ _ _ _ _ Hp Hlen) as Hall.
  rewrite Forall_forall in Hw, Hh, Hall.
  destruct (Hh p Hin) as (Hheight & -> & _).
  destruct (Hall p Hin) as (idx' & _ & Hidx & -> & _).
  rewrite (Hw p Hin). split; [|split; [lia|]].
  - unfold max_width, measure_lines. rewrite measure_lines_fold. simpl.
    pose proof (max_width_fold_ge font (reverse (style_lines lines)) 0) as [H0 _]. lia.
  - pose proof (lines_height_ge (heights font lines) (part_start_index p)
                  (length (lines_for_this_part p))
                  (heights_nonneg font lines Hpos) ltac:(lia)).
    lia.
Qed.

Lemma image_size_lower_bounds_witness :
  fs (world_of four_lines) !! INPUT_FILE = Some (TextFile four_lines) /\
  (length four_lines + 1 < 6)%nat /\
  (forall text, 0 <= (get_text_size font20 text).2) /\
  exists parts w',
    main 6 font20 (world_of four_lines) = (Ok parts, w') /\
    forall p, p ∈ parts ->
      2 * PADDING <= im_width (img p) /\
      (1 <= length (lines_for_this_part p))%nat /\
      2 * PADDING + LINE_SPACING * Z.of_nat (length (lines_for_this_part p))
        <= im_height (img p).
Proof.
  assert (H : forall text, 0 <= (get_text_size font20 text).2).
  { intros text. simpl. lia. }
  split; [reflexivity|]. split; [simpl; lia|]. split; [exact H|].
  apply (image_size_lower_bounds 6 font20 (world_of four_lines) four_lines);
    [reflexivity|simpl; lia|exact H].
Defined.

(** ** Measured heights *)

(** The measuring loop records one height per displayed line, in order:
    the height [get_text_size] gives for that line.  So the look-ups of
    [line_heights] in the pagination and drawing loops are never out of
    range. *)
Theorem heights_are_measured font lines :
  length (heights font lines) = length (displayed_lines lines) /\
  forall i, heights font lines !! i =
    (fun line => (get_text_size font line).2) <$> displayed_lines lines !! i.
Proof.
  split.
  - unfold displayed_lines. by rewrite heights_length, style_lines_length.
  - intros i. unfold heights, displayed_lines.
    by rewrite measure_lines_heights, list_lookup_fmap.
Qed.

(** ** Missing transcript, output path taken *)

(** Without the transcript but with a node already at the output
    directory's path, [main] changes nothing in the file system and
    prints nothing on the output stream.  When the node is a directory,
    [main] prints its message on the error stream and exits with status
    1.  When it is a regular file, [open] raises [NotADirectoryError],
    which [main] does not catch: the exception leaves [main] and no
    message of the script is printed. *)
Theorem missing_input_existing_dir fuel font w n :
  fs w !! INPUT_FILE = None ->
  fs w !! "output"%string = Some n ->
  main fuel font w =
    match n with
    | Dir => (Raise (SystemExit 1), eprint not_found_message w)
    | TextFile _ | PngFile _ => (Raise NotADirectoryError, w)
    end /\
  exit_status (main fuel font w).1 = Some 1 /\
  fs (main fuel font w).2 = fs w /\
  stdout (main fuel font w).2 = stdout w.
Proof.
  intros Hfile Hdir.
  assert (Hens : ensure_output_dir w = w).
  { unfold ensure_output_dir, path_exists. rewrite dirname_output, Hdir. done. }
  assert (Hmain : main fuel font w =
    match n with
    | Dir => (Raise (SystemExit 1), eprint not_found_message w)
    | TextFile _ | PngFile _ => (Raise NotADirectoryError, w)
    end).
  { unfold main, read_lines. rewrite Hens, Hfile, dirname_input, Hdir.
    by destruct n. }
  rewrite Hmain. split; [done|]. by destruct n.
Qed.

Lemma missing_input_existing_dir_witness :
  fs world_output_is_file !! INPUT_FILE = None /\
  fs world_output_is_file !! "output"%string = Some (TextFile []) /\
  main 5 font20 world_output_is_file =
    match TextFile [] with
    | Dir => (Raise (SystemExit 1), eprint not_found_message world_output_is_file)
    | TextFile _ | PngFile _ => (Raise NotADirectoryError, world_output_is_file)
    end /\
  exit_status (main 5 font20 world_output_is_file).1 = Some 1 /\
  fs (main 5 font20 world_output_is_file).2 = fs world_output_is_file /\
  stdout (main 5 font20 world_output_is_file).2 = stdout world_output_is_file.
Proof.
  split; [reflexivity|]. split; [reflexivity|].
  apply (missing_input_existing_dir 5 font20 world_output_is_file (TextFile []));
    reflexivity.
Defined.

(** The same with a directory at the output path. *)
Example missing_input_dir_present :
  main 5 font20 (ensure_output_dir empty_world) =
  (Raise (SystemExit 1), eprint not_found_message (ensure_output_dir empty_world)).
Proof. reflexivity. Qed.
